(** * owrx/controllers/settings.py: the general settings form

    A shallow embedding of [Section] and of
    [GeneralSettingsController.processFormData], together with the parts of
    the Python runtime they call ([bytes.decode], [urllib.parse.parse_qs],
    [str.format], [str.join], ordered [dict]s).

    Conventions.
    - A Python [str] is a Rocq [string] holding its UTF-8 bytes; [bytes] are
      Rocq [string]s as well.  Every character the code inspects ([&], [=],
      [+], [%], braces) is ASCII, so splitting and replacing act on the
      bytes exactly as they act on the code points.
    - A raised exception is a value of [exn]; fallible pure code returns
      [exn + A], code that touches the configuration runs in the monad [M].
    - The configuration is a [gmap]; a [dict] that the code iterates over is
      an association list in insertion order. *)

From Stdlib Require Import ZArith Ascii String.
From stdpp Require Import base option list strings gmap fin_maps.

Local Open Scope string_scope.
Local Open Scope list_scope.
Set Warnings "-register-all".

(** ** Exceptions and the error monad *)

Inductive exn : Type :=
  Raise (cls : string) (msg : string).

Definition bind {A B} (m : exn + A) (k : A → exn + B) : exn + B :=
  match m with
  | inl e => inl e
  | inr a => k a
  end.

Notation "'try' x <- m ; k" := (bind m (λ x, k))
  (at level 10, x name, m at level 100, k at level 200,
   format "'[v' 'try'  x  <-  m ; '/' k ']'").

(** ** Python string primitives *)

Module PyStr.

(** [s.split(sep)] for a one-character separator: never empty, one more
    field than there are separators. *)
Fixpoint split (sep : ascii) (s : string) : list string :=
  match s with
  | EmptyString => [""]
  | String c r =>
      if Ascii.eqb c sep then "" :: split sep r
      else match split sep r with
           | h :: t => String c h :: t
           | [] => [String c ""]
           end
  end.

(** [s.split(sep, 1)]: at most one cut, at the first separator. *)
Fixpoint split1 (sep : ascii) (s : string) : list string :=
  match s with
  | EmptyString => [""]
  | String c r =>
      if Ascii.eqb c sep then [""; r]
      else match split1 sep r with
           | h :: t => String c h :: t
           | [] => [String c ""]
           end
  end.

(** [s.replace(a, b)] for one-character [a] and [b]. *)
Fixpoint replace (a b : ascii) (s : string) : string :=
  match s with
  | EmptyString => ""
  | String c r => String (if Ascii.eqb c a then b else c) (replace a b r)
  end.

(** [c in s]. *)
Fixpoint contains (c : ascii) (s : string) : bool :=
  match s with
  | EmptyString => false
  | String c' r => Ascii.eqb c' c || contains c r
  end.

(** [len(s) == 0]. *)
Definition is_empty (s : string) : bool :=
  match s with EmptyString => true | _ => false end.

(** [sep.join(l)]. *)
Definition join (sep : string) (l : list string) : string :=
  String.concat sep l.

(** [bytes.decode("utf-8")] in strict mode: the well-formed byte sequences
    of the Unicode standard (no overlong forms, no surrogates, nothing
    above U+10FFFF) decode, anything else raises. *)
Definition between (lo hi : N) (c : ascii) : bool :=
  (lo <=? N_of_ascii c)%N && (N_of_ascii c <=? hi)%N.

Definition cont : ascii → bool := between 128 191.

Fixpoint utf8_valid (b : string) : bool :=
  match b with
  | EmptyString => true
  | String c0 r0 =>
      if between 0 127 c0 then utf8_valid r0
      else match r0 with
      | EmptyString => false
      | String c1 r1 =>
          if between 194 223 c0 then cont c1 && utf8_valid r1
          else match r1 with
          | EmptyString => false
          | String c2 r2 =>
              if between 224 239 c0 then
                (if between 224 224 c0 then between 160 191 c1
                 else if between 237 237 c0 then between 128 159 c1
                 else cont c1)
                && cont c2 && utf8_valid r2
              else match r2 with
              | EmptyString => false
              | String c3 r3 =>
                  between 240 244 c0
                  && (if between 240 240 c0 then between 144 191 c1
                      else if between 244 244 c0 then between 128 143 c1
                      else cont c1)
                  && cont c2 && cont c3 && utf8_valid r3
              end
          end
      end
  end.

(** [b.isascii()]. *)
Fixpoint is_ascii (b : string) : bool :=
  match b with
  | EmptyString => true
  | String c r => between 0 127 c && is_ascii r
  end.

Definition decode_utf8 (b : string) : exn + string :=
  if utf8_valid b then inr b
  else inl (Raise "UnicodeDecodeError" "'utf-8' codec can't decode bytes").

End PyStr.

(** ** urllib.parse

    [parse_qs] and [parse_qsl] of the Python standard library, as called
    here: [strict_parsing=False], no [max_num_fields], the separator [&]. *)

Module Urllib.
Section WithPercentDecoder.

(** The percent-decoder of [unquote] ([%XX] escapes turned into bytes and
    decoded with [errors='replace']) is the standard library's; it is
    only reached for a string that contains a percent sign. *)
Variable unquote_percent : string → string.

Definition unquote (s : string) : string :=
  if PyStr.contains "%" s then unquote_percent s else s.

(** One [name_value] of [qs.split('&')] in [parse_qsl], with
    [strict_parsing=False]: the list of pairs this field appends. *)
Definition parse_field (keep_blank_values : bool) (name_value : string)
  : list (string * string) :=
  if PyStr.is_empty name_value then []
  else
    let nv := PyStr.split1 "=" name_value in
    let nv' :=
      if negb (length nv =? 2)%nat then
        if keep_blank_values then Some (nv ++ [""]) else None
      else Some nv in
    match nv' with
    | Some [n; v] =>
        if negb (PyStr.is_empty v) || keep_blank_values then
          [(unquote (PyStr.replace "+" " " n),
            unquote (PyStr.replace "+" " " v))]
        else []
    | _ => []
    end.

Definition parse_qsl (qs : string) (keep_blank_values : bool)
  : list (string * string) :=
  flat_map (parse_field keep_blank_values) (PyStr.split "&" qs).

(** The loop body of [parse_qs]: append to the list of a known name, start
    a list for a new one. *)
Definition add_pair (parsed_result : gmap string (list string))
    (p : string * string) : gmap string (list string) :=
  match parsed_result !! p.1 with
  | Some l => <[p.1 := l ++ [p.2]]> parsed_result
  | None => <[p.1 := [p.2]]> parsed_result
  end.

Definition parse_qs (qs : string) (keep_blank_values : bool)
  : gmap string (list string) :=
  fold_left add_pair (parse_qsl qs keep_blank_values) ∅.

End WithPercentDecoder.

(** [_ALWAYS_SAFE]: the unreserved characters, which [quote] never
    escapes: letters, digits and [_.-~]. *)
Definition always_safe (c : ascii) : bool :=
  PyStr.between 65 90 c || PyStr.between 97 122 c || PyStr.between 48 57 c
  || PyStr.contains c "_.-~".

(** One digit of [{:02X}]. *)
Definition hex_digit (n : N) : ascii :=
  if (n <? 10)%N then ascii_of_N (48 + n) else ascii_of_N (55 + n).

(** [quote(string)] with the default [safe='/']: the UTF-8 bytes of the
    string, each kept when it is unreserved or a slash and written [%XX]
    otherwise. *)
Fixpoint quote (s : string) : string :=
  match s with
  | EmptyString => ""
  | String c r =>
      if always_safe c || PyStr.contains c "/" then String c (quote r)
      else
        String "%"
          (String (hex_digit (N_of_ascii c / 16))
             (String (hex_digit (N_of_ascii c mod 16)) (quote r)))
  end.

(** A key of [_hextobyte]: the value of a hexadecimal digit of either
    case. *)
Definition hex_value (c : ascii) : option N :=
  if PyStr.between 48 57 c then Some (N_of_ascii c - 48)%N
  else if PyStr.between 65 70 c then Some (N_of_ascii c - 55)%N
  else if PyStr.between 97 102 c then Some (N_of_ascii c - 87)%N
  else None.

(** [unquote_to_bytes(string)]: a percent sign followed by two hexadecimal
    digits is the byte they write; any other percent sign stays. *)
Fixpoint unquote_to_bytes (s : string) : string :=
  match s with
  | EmptyString => ""
  | String c r =>
      if Ascii.eqb c "%" then
        match r with
        | String h (String l r') =>
            match hex_value h, hex_value l with
            | Some a, Some b =>
                String (ascii_of_N (16 * a + b)) (unquote_to_bytes r')
            | _, _ => String c (unquote_to_bytes r)
            end
        | _ => String c (unquote_to_bytes r)
        end
      else String c (unquote_to_bytes r)
  end.

End Urllib.


(** ** Python values and ordered dicts

    A [float] is given by the bits of its IEEE 754 double; a [dict] held as
    a value, by its items in insertion order. *)

Inductive value : Type :=
  | VNone
  | VBool (b : bool)
  | VInt (n : Z)
  | VFloat (bits : N)
  | VStr (s : string)
  | VList (l : list value)
  | VSet (l : list value)
  | VDict (items : list (string * value)).

(** [v is None]. *)
Definition is_None (v : value) : bool :=
  match v with VNone => true | _ => false end.

(** [bool(v)]. *)
Definition truthy (v : value) : bool :=
  match v with
  | VNone => false
  | VBool b => b
  | VInt n => negb (n =? 0)%Z
  | VFloat bits => negb ((bits =? 0)%N || (bits =? 2 ^ 63)%N)
  | VStr s => negb (PyStr.is_empty s)
  | VList l | VSet l => match l with [] => false | _ => true end
  | VDict items => match items with [] => false | _ => true end
  end.

Module PyDict.
Section Dict.
Context {V : Type}.

(** The items of a dict, in insertion order. *)
Definition t := list (string * V).

(** [d[k]] as an option: the first entry for [k]. *)
Fixpoint getitem (k : string) (d : t) : option V :=
  match d with
  | [] => None
  | (k', v) :: r => if decide (k = k') then Some v else getitem k r
  end.

(** [d[k] = v]: a known key keeps its place and takes the new value, a new
    key goes to the end. *)
Fixpoint setitem (k : string) (v : V) (d : t) : t :=
  match d with
  | [] => [(k, v)]
  | (k', v') :: r =>
      if decide (k = k') then (k', v) :: r else (k', v') :: setitem k v r
  end.

(** [for k, v in items: d[k] = v]. *)
Definition update (d : t) (items : list (string * V)) : t :=
  fold_left (λ acc kv, setitem kv.1 kv.2 acc) items d.

Definition keys (d : t) : list string := d.*1.

(** The value a sequence of assignments leaves under [k]: the last one. *)
Definition last_binding (k : string) (items : list (string * V)) : option V :=
  getitem k (reverse items).

End Dict.
Arguments t : clear implicits.
End PyDict.

(** ** The store and the monad of the controller *)

(** Modelled from the spec: the configuration store ([owrx.config.Config]),
    a mutable key-value mapping with membership test, set, delete and
    persist, where persist fails with a storage error on an I/O failure.
    What happens to the mapping, each persist that went through and the
    response sent are recorded in [log] in the order they happen;
    [storage] is the fault of the storage behind the store, if it has
    one. *)
Inductive event : Type :=
  | EvSet (k : string) (v : value)
  | EvDel (k : string)
  | EvStore (snapshot : gmap string value)
  | EvRedirect (url : string).

Record world : Type := World {
  config : gmap string value;
  log : list event;
  storage : option exn
}.

Definition M (A : Type) : Type := world → (exn + A) * world.

Definition retM {A} (a : A) : M A := λ w, (inr a, w).

Definition bindM {A B} (m : M A) (k : A → M B) : M B :=
  λ w, match m w with
       | (inl e, w') => (inl e, w')
       | (inr a, w') => k a w'
       end.

(** A pure computation that may raise, run where the store is at hand. *)
Definition lift {A} (r : exn + A) : M A := λ w, (r, w).

Notation "'run' x <- m ; k" := (bindM m (λ x, k))
  (at level 10, x name, m at level 100, k at level 200,
   format "'[v' 'run'  x  <-  m ; '/' k ']'").
Notation "m ;; k" := (bindM m (λ _, k))
  (at level 100, k at level 200, right associativity).

Module Config.

(** Modelled from the spec: the membership test of the store,
    [k in config]. *)
Definition contains (k : string) : M bool :=
  λ w, (inr (bool_decide (is_Some (config w !! k))), w).

(** Modelled from the spec: the delete of the store, [del config[k]]; as
    for any Python mapping, a missing key raises. *)
Definition delitem (k : string) : M unit :=
  λ w, match config w !! k with
       | Some _ =>
           (inr (),
            World (delete k (config w)) (log w ++ [EvDel k]) (storage w))
       | None => (inl (Raise "KeyError" k), w)
       end.

(** Modelled from the spec: the set of the store, [config[k] = v]. *)
Definition setitem (k : string) (v : value) : M unit :=
  λ w, (inr (),
        World (<[k := v]> (config w)) (log w ++ [EvSet k v]) (storage w)).

(** Modelled from the spec: the persist of the store, [Config.store()],
    which saves the mapping as it is now, or raises the fault of the
    storage and saves nothing. *)
Definition store : M unit :=
  λ w, match storage w with
       | Some e => (inl e, w)
       | None =>
           (inr (),
            World (config w) (log w ++ [EvStore (config w)]) (storage w))
       end.

End Config.

(** Modelled from the spec: [send_redirect] of the controller base class,
    which answers the request with a redirect to [url]. *)
Definition send_redirect (url : string) : M unit :=
  λ w, (inr (), World (config w) (log w ++ [EvRedirect url]) (storage w)).

(** [for x in xs: body(x)]. *)
Fixpoint for_each {A} (xs : list A) (body : A → M unit) : M unit :=
  match xs with
  | [] => retM ()
  | x :: r => body x ;; for_each r body
  end.

(** [[f(x) for x in xs]], where [f] may touch the store or raise. *)
Fixpoint map_M {A B} (f : A → M B) (xs : list A) : M (list B) :=
  match xs with
  | [] => retM []
  | x :: r =>
      run y <- f x;
      run ys <- map_M f r;
      retM (y :: ys)
  end.

(** [[f(x) for x in xs]], where [f] may raise. *)
Fixpoint map_E {A B} (f : A → exn + B) (xs : list A) : exn + list B :=
  match xs with
  | [] => inr []
  | x :: r =>
      try y <- f x;
      try ys <- map_E f r;
      inr (y :: ys)
  end.

(** ** str.format *)

Module Format.

Definition double_quote : string := String "034" "".
Definition newline : string := String "010" "".

(** [kwargs[name]]. *)
Definition field (kwargs : PyDict.t string) (name : string) : exn + string :=
  match PyDict.getitem name kwargs with
  | Some v => inr v
  | None => inl (Raise "KeyError" name)
  end.

(** [template.format] with keyword arguments, for replacement fields that are plain
    names.  [name] is [None] in literal text and holds the characters
    read so far inside a replacement field; doubled braces are literal
    braces. *)
Fixpoint format_from (kwargs : PyDict.t string) (name : option string)
    (template : string) : exn + string :=
  match template, name with
  | EmptyString, None => inr ""
  | EmptyString, Some _ =>
      inl (Raise "ValueError" "expected '}' before end of string")
  | String c r, None =>
      if Ascii.eqb c "{" then
        match r with
        | String "{" r' =>
            try s <- format_from kwargs None r'; inr (String "{" s)
        | _ => format_from kwargs (Some "") r
        end
      else if Ascii.eqb c "}" then
        match r with
        | String "}" r' =>
            try s <- format_from kwargs None r'; inr (String "}" s)
        | _ =>
            inl (Raise "ValueError" "Single '}' encountered in format string")
        end
      else try s <- format_from kwargs None r; inr (String c s)
  | String c r, Some n =>
      if Ascii.eqb c "}" then
        try v <- field kwargs n;
        try s <- format_from kwargs None r;
        inr (v +:+ s)
      else format_from kwargs (Some (n +:+ String c "")) r
  end.

Definition format (template : string) (kwargs : PyDict.t string)
  : exn + string :=
  format_from kwargs None template.

End Format.

(** ** Inputs and sections *)

Module Input.

(** The interface every form input implements ([owrx.form]): [render]
    turns the current configuration into markup and, as the spec has it,
    never fails; [parse] turns the decoded form data into a dict from store
    keys to values, given by its items in order, or raises. *)
Record t : Type := Input {
  render : gmap string value → string;
  parse : gmap string (list string) → exn + list (string * value)
}.

End Input.

(** [{k: v for i in xs for k, v in parse_one(i).items()}]: the dict
    comprehension of [Section.parse] and of [processFormData].  The parts
    are evaluated in order; the first one that raises ends the
    comprehension. *)
Fixpoint comprehension {I} (parse_one : I → exn + list (string * value))
    (xs : list I) (acc : PyDict.t value) : exn + PyDict.t value :=
  match xs with
  | [] => inr acc
  | i :: r =>
      try d <- parse_one i;
      comprehension parse_one r (PyDict.update acc d)
  end.

(** The exception a comprehension ends with, if any: that of the first part
    that raises. *)
Fixpoint first_raise {I A} (parse_one : I → exn + A) (xs : list I)
    : option exn :=
  match xs with
  | [] => None
  | i :: r =>
      match parse_one i with
      | inl e => Some e
      | inr _ => first_raise parse_one r
      end
  end.

(** The items the parts yield, one part after the other. *)
Definition parsed_items {I} (parse_one : I → exn + list (string * value))
    (xs : list I) : list (string * value) :=
  flat_map (λ i, match parse_one i with inr d => d | inl _ => [] end) xs.

Module Section.

Record t : Type := Section {
  title : string;
  inputs : list Input.t
}.

(** [Section.__init__]: stores its arguments. *)
Definition init (title : string) (inputs : list Input.t) : exn + t :=
  inr (Section title inputs).

Definition render_inputs (self : t) : M string :=
  λ w, (inr (PyStr.join "" (map (λ i, Input.render i (config w)) (inputs self))), w).

Definition template : string :=
  let nl := Format.newline in
  let dq := Format.double_quote in
  nl +:+
  "            <div class=" +:+ dq +:+ "col-12 settings-section" +:+ dq
    +:+ ">" +:+ nl +:+
  "                <h3 class=" +:+ dq +:+ "settings-header" +:+ dq
    +:+ ">" +:+ nl +:+
  "                    {title}" +:+ nl +:+
  "                </h3>" +:+ nl +:+
  "                {inputs}" +:+ nl +:+
  "            </div>" +:+ nl +:+
  "        ".

Definition render (self : t) : M string :=
  run rendered <- render_inputs self;
  lift (Format.format template
          [("title", title self); ("inputs", rendered)]).

Definition parse (self : t) (data : gmap string (list string))
  : exn + PyDict.t value :=
  comprehension (λ i, Input.parse i data) (inputs self) [].

End Section.

(** ** GeneralSettingsController *)

Module GeneralSettingsController.
Section Controller.

Variable unquote_percent : string → string.

(** The class attribute [sections]: the schema of the page. *)
Variable sections : list Section.t.

(** The body of the commit loop, for one item of the parsed dict. *)
Definition commit_item (kv : string * value) : M unit :=
  let (k, v) := kv in
  if is_None v then
    run present <- Config.contains k;
    if present then Config.delitem k else retM ()
  else Config.setitem k v.

(** The dict comprehension over [sections] in [processFormData]. *)
Definition parse_sections (data : gmap string (list string))
  : exn + PyDict.t value :=
  comprehension (λ i, Section.parse i data) sections [].

(** [processFormData], given the request body ([self.get_body()]). *)
Definition processFormData (body : string) : M unit :=
  run text <- lift (PyStr.decode_utf8 body);
  let data := Urllib.parse_qs unquote_percent text true in
  run data <- lift (parse_sections data);
  for_each data commit_item ;;
  Config.store ;;
  send_redirect "/generalsettings".

(** Every input of the schema, in declared order. *)
Definition all_inputs : list Input.t := flat_map Section.inputs sections.

Definition form_template : string :=
  let nl := Format.newline in
  let dq := Format.double_quote in
  nl +:+
  "            <form class=" +:+ dq +:+ "settings-body" +:+ dq
    +:+ " method=" +:+ dq +:+ "POST" +:+ dq +:+ ">" +:+ nl +:+
  "                {sections}" +:+ nl +:+
  "                <div class=" +:+ dq +:+ "buttons" +:+ dq +:+ ">" +:+ nl +:+
  "                    <button type=" +:+ dq +:+ "submit" +:+ dq
    +:+ " class=" +:+ dq +:+ "btn btn-primary" +:+ dq
    +:+ ">Apply</button>" +:+ nl +:+
  "                </div>" +:+ nl +:+
  "            </form>" +:+ nl +:+
  "        ".

(** [render_sections]: every section rendered, in order, inside the form. *)
Definition render_sections : M string :=
  run rendered <- map_M Section.render sections;
  lift (Format.format form_template [("sections", PyStr.join "" rendered)]).

End Controller.
End GeneralSettingsController.

(** ** SdrSettingsController *)

Module SdrSettingsController.
Section Controller.

(** [json.dumps] of a device configuration is the standard library's: it
    returns the JSON text, or raises (a [TypeError] for a value JSON has no
    form for, such as a set). *)
Variable json_dumps : PyDict.t value → exn + string.

(** [str(v)] of a value that is not a string is the runtime's. *)
Variable str_other : value → string.

(** What a replacement field shows for a value: a string as it is, anything
    else through [str]. *)
Definition py_str (v : value) : string :=
  match v with
  | VStr s => s
  | _ => str_other v
  end.

Definition form_template : string :=
  let nl := Format.newline in
  let dq := Format.double_quote in
  nl +:+
  "            <form class=" +:+ dq +:+ "sdrdevice" +:+ dq
    +:+ " data-config=" +:+ dq +:+ "{formdata}" +:+ dq
    +:+ "></form>" +:+ nl +:+
  "        ".

Definition render_form (device_id : string) (config : PyDict.t value)
  : exn + string :=
  try json <- json_dumps config;
  Format.format form_template
    [("device_id", device_id); ("formdata", Urllib.quote json)].

Definition device_template : string :=
  let nl := Format.newline in
  let dq := Format.double_quote in
  nl +:+
  "            <div class=" +:+ dq +:+ "card device bg-dark text-white" +:+ dq
    +:+ ">" +:+ nl +:+
  "                <div class=" +:+ dq +:+ "card-header" +:+ dq
    +:+ ">" +:+ nl +:+
  "                    {device_name}" +:+ nl +:+
  "                </div>" +:+ nl +:+
  "                <div class=" +:+ dq +:+ "card-body" +:+ dq
    +:+ ">" +:+ nl +:+
  "                    {form}" +:+ nl +:+
  "                </div>" +:+ nl +:+
  "            </div>" +:+ nl +:+
  "        ".

(** [config[k]] of a dict; a missing key raises. *)
Definition subscript (k : string) (config : PyDict.t value) : exn + value :=
  match PyDict.getitem k config with
  | Some v => inr v
  | None => inl (Raise "KeyError" k)
  end.

(** [render_device]: the arguments of [format] are evaluated left to right,
    the name first. *)
Definition render_device (device_id : string) (config : PyDict.t value)
  : exn + string :=
  try device_name <- subscript "name" config;
  try form <- render_form device_id config;
  Format.format device_template
    [("device_name", py_str device_name); ("form", form)].

(** [render_devices], given what [Config.get()] holds under [sdrs]: a dict
    from device id to device configuration, or nothing. *)
Definition render_devices (sdrs : option (PyDict.t (PyDict.t value)))
  : exn + string :=
  match sdrs with
  | None => inl (Raise "KeyError" "sdrs")
  | Some devices =>
      try cards <- map_E (λ kv, render_device kv.1 kv.2) devices;
      inr (PyStr.join "" cards)
  end.

End Controller.
End SdrSettingsController.

(** ** What the spec asks of the decoding and of the commit *)

Module Spec.

(** The strings submitted under the name [k], in the order of the body. *)
Definition submitted (k : string) (pairs : list (string * string))
  : list string :=
  omap (λ p, if decide (p.1 = k) then Some p.2 else None) pairs.

(** The canonical mapping binds a name to the list of strings submitted
    under it, and binds no name nothing was submitted under. *)
Definition canonical (pairs : list (string * string)) (k : string)
  : option (list string) :=
  match submitted k pairs with
  | [] => None
  | vs => Some vs
  end.

(** An item of the delta, applied to a mapping: the deletion marker
    removes the key (nothing to do when it is absent), any other value is
    set or overwritten. *)
Definition apply_item (cfg : gmap string value) (kv : string * value)
  : gmap string value :=
  if is_None kv.2 then delete kv.1 cfg else <[kv.1 := kv.2]> cfg.

Definition apply_delta (cfg : gmap string value) (data : PyDict.t value)
  : gmap string value :=
  fold_left apply_item data cfg.

(** The store operations an item asks for, given the mapping before the
    commit. *)
Definition item_events (cfg : gmap string value) (kv : string * value)
  : list event :=
  if is_None kv.2 then
    match cfg !! kv.1 with
    | Some _ => [EvDel kv.1]
    | None => []
    end
  else [EvSet kv.1 kv.2].

Definition delta_events (cfg : gmap string value) (data : PyDict.t value)
  : list event :=
  flat_map (item_events cfg) data.

(** What a committed value leaves under its key. *)
Definition stored (v : value) : option value :=
  if is_None v then None else Some v.

(** The titled container of a section: a [div] holding the title as an [h3]
    heading, followed by the markup of the inputs. *)
Definition container (title body : string) : string :=
  let nl := Format.newline in
  let dq := Format.double_quote in
  nl +:+
  "            <div class=" +:+ dq +:+ "col-12 settings-section" +:+ dq
    +:+ ">" +:+ nl +:+
  "                <h3 class=" +:+ dq +:+ "settings-header" +:+ dq
    +:+ ">" +:+ nl +:+
  "                    " +:+ title +:+ nl +:+
  "                </h3>" +:+ nl +:+
  "                " +:+ body +:+ nl +:+
  "            </div>" +:+ nl +:+
  "        ".

(** The markup of a list of inputs, one after the other. *)
Definition rendered (cfg : gmap string value) (inputs : list Input.t) : string :=
  foldr (λ i rest, Input.render i cfg +:+ rest) "" inputs.

(** Every error a batch holds: what each input raises on the form data. *)
Definition raised_by (inputs : list Input.t) (raw : gmap string (list string))
  : list exn :=
  omap (λ i, match Input.parse i raw with inl e => Some e | inr _ => None end)
    inputs.

(** The errors the outcome of a request carries. *)
Definition reported (outcome : exn + unit) : list exn :=
  match outcome with inl e => [e] | inr _ => [] end.

(** The form of the general settings page around the markup of its
    sections. *)
Definition settings_form (body : string) : string :=
  let nl := Format.newline in
  let dq := Format.double_quote in
  nl +:+
  "            <form class=" +:+ dq +:+ "settings-body" +:+ dq
    +:+ " method=" +:+ dq +:+ "POST" +:+ dq +:+ ">" +:+ nl +:+
  "                " +:+ body +:+ nl +:+
  "                <div class=" +:+ dq +:+ "buttons" +:+ dq +:+ ">" +:+ nl +:+
  "                    <button type=" +:+ dq +:+ "submit" +:+ dq
    +:+ " class=" +:+ dq +:+ "btn btn-primary" +:+ dq
    +:+ ">Apply</button>" +:+ nl +:+
  "                </div>" +:+ nl +:+
  "            </form>" +:+ nl +:+
  "        ".

(** The markup of a list of sections, one container after the other. *)
Definition containers (cfg : gmap string value) (sections : list Section.t)
  : string :=
  foldr (λ s rest,
           container (Section.title s) (rendered cfg (Section.inputs s))
             +:+ rest) "" sections.

(** The form of a device, carrying its configuration in an attribute. *)
Definition device_form (formdata : string) : string :=
  let nl := Format.newline in
  let dq := Format.double_quote in
  nl +:+
  "            <form class=" +:+ dq +:+ "sdrdevice" +:+ dq
    +:+ " data-config=" +:+ dq +:+ formdata +:+ dq
    +:+ "></form>" +:+ nl +:+
  "        ".

(** The card of a device: its name as header, its form as body. *)
Definition device_card (device_name form : string) : string :=
  let nl := Format.newline in
  let dq := Format.double_quote in
  nl +:+
  "            <div class=" +:+ dq +:+ "card device bg-dark text-white" +:+ dq
    +:+ ">" +:+ nl +:+
  "                <div class=" +:+ dq +:+ "card-header" +:+ dq
    +:+ ">" +:+ nl +:+
  "                    " +:+ device_name +:+ nl +:+
  "                </div>" +:+ nl +:+
  "                <div class=" +:+ dq +:+ "card-body" +:+ dq
    +:+ ">" +:+ nl +:+
  "                    " +:+ form +:+ nl +:+
  "                </div>" +:+ nl +:+
  "            </div>" +:+ nl +:+
  "        ".

(** What a device gives [render_devices]: its card, when it has a name and
    its configuration has a JSON form; else the exception, the missing
    name first. *)
Definition card (json_dumps : PyDict.t value → exn + string)
    (str_other : value → string) (kv : string * PyDict.t value)
  : exn + string :=
  match PyDict.getitem "name" kv.2 with
  | Some v =>
      match json_dumps kv.2 with
      | inr json =>
          inr (device_card (SdrSettingsController.py_str str_other v)
                 (device_form (Urllib.quote json)))
      | inl e => inl e
      end
  | None => inl (Raise "KeyError" "name")
  end.

(** The markup of the devices that have a card, one card after the other. *)
Definition cards (json_dumps : PyDict.t value → exn + string)
    (str_other : value → string) (devices : PyDict.t (PyDict.t value))
  : string :=
  foldr (λ kv rest,
           match card json_dumps str_other kv with
           | inr c => c +:+ rest
           | inl _ => rest
           end) "" devices.

(** The part of a field before its first [sep], and the part after it
    (empty when there is none). *)
Fixpoint before (sep : ascii) (s : string) : string :=
  match s with
  | EmptyString => ""
  | String c r => if Ascii.eqb c sep then "" else String c (before sep r)
  end.

Fixpoint after (sep : ascii) (s : string) : string :=
  match s with
  | EmptyString => ""
  | String c r => if Ascii.eqb c sep then r else after sep r
  end.

(** The canonical pairs of a body: its fields between ampersands, the empty
    ones left out, each cut at its first equals sign, plus signs read as
    spaces, then percent-decoded. *)
Definition body_pairs (unquote_percent : string → string) (text : string)
  : list (string * string) :=
  map (λ field,
         (Urllib.unquote unquote_percent
            (PyStr.replace "+" " " (before "=" field)),
          Urllib.unquote unquote_percent
            (PyStr.replace "+" " " (after "=" field))))
    (filter (λ field, field ≠ "") (PyStr.split "&" text)).

(** The world once the delta of [data] is applied to the mapping in
    memory. *)
Definition applied (w : world) (data : PyDict.t value) : world :=
  World (apply_delta (config w) data)
        (log w ++ delta_events (config w) data)
        (storage w).

(** How a request ends once every input has parsed: the delta applied,
    then either the persist and the redirect, or the fault of the storage
    with nothing persisted and no response. *)
Definition commit_outcome (w : world) (data : PyDict.t value)
  : (exn + unit) * world :=
  match storage w with
  | None =>
      (inr (),
       World (apply_delta (config w) data)
             (log w ++ delta_events (config w) data
                    ++ [EvStore (apply_delta (config w) data);
                        EvRedirect "/generalsettings"])
             None)
  | Some e => (inl e, applied w data)
  end.

(** The store operations of a delta on a store that already holds it: the
    values are set again, nothing is left to delete. *)
Definition set_events (data : PyDict.t value) : list event :=
  flat_map (λ kv, if is_None kv.2 then [] else [EvSet kv.1 kv.2]) data.

Definition is_store (e : event) : bool :=
  match e with EvStore _ => true | _ => false end.

Definition is_mutation (e : event) : bool :=
  match e with EvSet _ _ | EvDel _ => true | _ => false end.

End Spec.

(** ** Input variants *)

Module Inputs.
Section Variants.

(** Modelled from the spec: the markup of a widget ([owrx.form]), which
    embeds the key name and the current value. *)
Variable widget : string → option value → string.

Fixpoint digits (s : string) (acc : Z) : option Z :=
  match s with
  | EmptyString => Some acc
  | String c r =>
      if PyStr.between 48 57 c
      then digits r (10 * acc + (Z.of_N (N_of_ascii c) - 48))%Z
      else None
  end.

(** Modelled from the spec: the numeric conversion of [NumberInput]: an
    optional minus sign and decimal digits; anything else is not a
    number. *)
Definition parse_int (s : string) : option Z :=
  match s with
  | EmptyString => None
  | String "-" r => if PyStr.is_empty r then None else Z.opp <$> digits r 0%Z
  | _ => digits s 0%Z
  end.

(** Modelled from the spec: [TextInput.parse], the default converter: the
    first submitted string; nothing submitted is the deletion marker. *)
Definition TextInput (id : string) : Input.t :=
  {| Input.render cfg := widget id (cfg !! id);
     Input.parse data :=
       match data !! id with
       | Some (s :: _) => inr [(id, VStr s)]
       | _ => inr [(id, VNone)]
       end |}.

(** Modelled from the spec: [NumberInput.parse]: the submitted string read
    as an integer; a string that is not a number raises a
    [ValidationError]. *)
Definition NumberInput (id : string) : Input.t :=
  {| Input.render cfg := widget id (cfg !! id);
     Input.parse data :=
       match data !! id with
       | Some (s :: _) =>
           match parse_int s with
           | Some n => inr [(id, VInt n)]
           | None => inl (Raise "ValidationError" id)
           end
       | _ => inr [(id, VNone)]
       end |}.

(** Modelled from the spec: [CheckboxInput.parse]: key present, with any
    value, is [True]; key absent is the deletion marker. *)
Definition CheckboxInput (id : string) : Input.t :=
  {| Input.render cfg := widget id (cfg !! id);
     Input.parse data :=
       match data !! id with
       | Some _ => inr [(id, VBool true)]
       | None => inr [(id, VNone)]
       end |}.

End Variants.
End Inputs.

(** ** The schema of the general settings page *)

Module Schema.

(** The input classes the schema uses ([owrx.form] and its submodules). *)
Inductive input_class : Type :=
  | TextInput | NumberInput | LocationInput | TextAreaInput | AvatarInput
  | FloatInput | DropdownInput | CheckboxInput | Js8ProfileCheckboxInput
  | MultiCheckboxInput | Q65ModeMatrix | ServicesCheckboxInput.

(** A declaration of the schema: the class and its two positional arguments,
    the store key and the label. *)
Record decl : Type := Decl {
  cls : input_class;
  id : string;
  label : string
}.

(** [GeneralSettingsController.sections], section by section: the title and
    the declarations in order. *)
Definition declared : list (string * list decl) :=
  [
    ("Receiver information",
     [
      Decl TextInput "receiver_name" "Receiver name";
      Decl TextInput "receiver_location" "Receiver location";
      Decl NumberInput "receiver_asl" "Receiver elevation";
      Decl TextInput "receiver_admin" "Receiver admin";
      Decl LocationInput "receiver_gps" "Receiver coordinates";
      Decl TextInput "photo_title" "Photo title";
      Decl TextAreaInput "photo_desc" "Photo description" ]);
    ("Receiver images",
     [
      Decl AvatarInput "receiver_avatar" "Receiver Avatar" ]);
    ("Receiver listings",
     [
      Decl TextAreaInput "receiver_keys" "Receiver keys" ]);
    ("Waterfall settings",
     [
      Decl NumberInput "fft_fps" "FFT speed";
      Decl NumberInput "fft_size" "FFT size";
      Decl FloatInput "fft_voverlap_factor" "FFT vertical overlap factor";
      Decl NumberInput "waterfall_min_level" "Lowest waterfall level";
      Decl NumberInput "waterfall_max_level" "Highest waterfall level" ]);
    ("Compression",
     [
      Decl DropdownInput "audio_compression" "Audio compression";
      Decl DropdownInput "fft_compression" "Waterfall compression" ]);
    ("Digimodes",
     [
      Decl CheckboxInput "digimodes_enable" "";
      Decl NumberInput "digimodes_fft_size" "Digimodes FFT size" ]);
    ("Demodulator settings",
     [
      Decl NumberInput "squelch_auto_margin" "Auto-Squelch threshold";
      Decl DropdownInput "wfm_deemphasis_tau" "Tau setting for WFM (broadcast FM) deemphasis" ]);
    ("Display settings",
     [
      Decl NumberInput "frequency_display_precision" "Frequency display precision" ]);
    ("Digital voice",
     [
      Decl NumberInput "digital_voice_unvoiced_quality" "Quality of unvoiced sounds in synthesized voice";
      Decl CheckboxInput "digital_voice_dmr_id_lookup" "DMR id lookup" ]);
    ("Map settings",
     [
      Decl TextInput "google_maps_api_key" "Google Maps API key";
      Decl NumberInput "map_position_retention_time" "Map retention time" ]);
    ("Decoding settings",
     [
      Decl NumberInput "decoding_queue_workers" "Number of decoding workers";
      Decl NumberInput "decoding_queue_length" "Maximum length of decoding job queue";
      Decl NumberInput "wsjt_decoding_depth" "Default WSJT decoding depth";
      Decl NumberInput "js8_decoding_depth" "Js8Call decoding depth";
      Decl Js8ProfileCheckboxInput "js8_enabled_profiles" "Js8Call enabled modes";
      Decl MultiCheckboxInput "fst4_enabled_intervals" "Enabled FST4 intervals";
      Decl MultiCheckboxInput "fst4w_enabled_intervals" "Enabled FST4W intervals";
      Decl Q65ModeMatrix "q65_enabled_combinations" "Enabled Q65 Mode combinations" ]);
    ("Background decoding",
     [
      Decl CheckboxInput "services_enabled" "Service";
      Decl ServicesCheckboxInput "services_decoders" "Enabled services" ]);
    ("APRS settings",
     [
      Decl TextInput "aprs_callsign" "APRS callsign";
      Decl CheckboxInput "aprs_igate_enabled" "APRS I-Gate";
      Decl TextInput "aprs_igate_server" "APRS-IS server";
      Decl TextInput "aprs_igate_password" "APRS-IS network password";
      Decl CheckboxInput "aprs_igate_beacon" "APRS beacon";
      Decl DropdownInput "aprs_igate_symbol" "APRS beacon symbol";
      Decl TextInput "aprs_igate_comment" "APRS beacon text";
      Decl NumberInput "aprs_igate_height" "Antenna height";
      Decl NumberInput "aprs_igate_gain" "Antenna gain";
      Decl DropdownInput "aprs_igate_dir" "Antenna direction" ]);
    ("pskreporter settings",
     [
      Decl CheckboxInput "pskreporter_enabled" "Reporting";
      Decl TextInput "pskreporter_callsign" "pskreporter callsign";
      Decl TextInput "pskreporter_antenna_information" "Antenna information" ]);
    ("WSPRnet settings",
     [
      Decl CheckboxInput "wsprnet_enabled" "Reporting";
      Decl TextInput "wsprnet_callsign" "wsprnet callsign" ]) ].

Definition decls : list decl := flat_map snd declared.

Definition ids : list string := map id decls.

Section Build.

(** The constructors of the input classes are not at hand; [implement]
    stands for them, applied to a declaration together with its keyword
    arguments (help texts, units, options, converters). *)
Variable implement : decl → Input.t.

Definition build_section (entry : string * list decl) : Section.t :=
  Section.Section entry.1 (map implement entry.2).

Definition sections : list Section.t := map build_section declared.

End Build.
End Schema.

(** ** A small schema for examples *)

Module Example.

(** The bodies below hold no percent sign, so the decoder is not reached. *)
Definition no_percent (s : string) : string := s.

Definition widget (id : string) (current : option value) : string :=
  "<" +:+ id +:+ ">".

Definition schema : list Section.t :=
  [ Section.Section "Receiver information"
      [ Inputs.TextInput widget "receiver_name";
        Inputs.NumberInput widget "receiver_asl" ];
    Section.Section "Waterfall settings"
      [ Inputs.NumberInput widget "fft_fps" ];
    Section.Section "APRS settings"
      [ Inputs.CheckboxInput widget "aprs_igate_enabled" ] ].

Definition store0 : world :=
  World {[ "receiver_name" := VStr "Old";
           "aprs_igate_enabled" := VBool true ]} [] None.

(** The same store on a storage that cannot be written. *)
Definition disk_full : exn := Raise "StorageError" "No space left on device".

Definition broken : world :=
  World {[ "receiver_name" := VStr "Old";
           "aprs_igate_enabled" := VBool true ]} [] (Some disk_full).

(** Bodies: the submission of the spec's example, one with a bad number,
    one with two, one with an empty field. *)
Definition good : string := "receiver_name=New&fft_fps=25".
Definition bad : string := "receiver_name=New&fft_fps=2x5".
Definition worse : string := "receiver_asl=high&fft_fps=fast".
Definition blank : string := "receiver_name=&fft_fps=0".

(** What [good] parses to. *)
Definition parsed : PyDict.t value :=
  [ ("receiver_name", VStr "New"); ("receiver_asl", VNone);
    ("fft_fps", VInt 25); ("aprs_igate_enabled", VNone) ].

Definition receiver_information : Section.t :=
  Section.Section "Receiver information"
    [ Inputs.TextInput widget "receiver_name";
      Inputs.NumberInput widget "receiver_asl" ].

(** Two inputs on one key, in one section and in two. *)
Definition clash : list Input.t :=
  [ Inputs.TextInput widget "squelch"; Inputs.CheckboxInput widget "squelch" ].

Definition clash_schema : list Section.t :=
  [ Section.Section "Demodulator settings" [ Inputs.TextInput widget "squelch" ];
    Section.Section "Display settings" [ Inputs.CheckboxInput widget "squelch" ] ].

End Example.

(** * Properties *)

(** ** Ordered dicts *)

Module PyDictFacts.
Import PyDict.
Section Facts.
Context {V : Type}.
Implicit Types (d items : list (string * V)) (k : string) (v : V).

Lemma getitem_app k d1 d2 :
  getitem k (d1 ++ d2) =
  match getitem k d1 with Some v => Some v | None => getitem k d2 end.
Proof.
  induction d1 as [|[k' v'] d1 IH]; simpl; [done|].
  by case_decide.
Qed.

Lemma getitem_None k d : getitem k d = None ↔ k ∉ keys d.
Proof.
  unfold keys. induction d as [|[k' v'] d IH]; simpl.
  - split; [intros _; apply not_elem_of_nil | done].
  - rewrite not_elem_of_cons, <- IH. case_decide; [|tauto].
    split; [done | intros [? _]; done].
Qed.

Lemma getitem_Some_elem k v d : getitem k d = Some v → (k, v) ∈ d.
Proof.
  induction d as [|[k' v'] d IH]; simpl; [done|].
  case_decide; intros ?; simplify_eq; [left | right; auto].
Qed.

Lemma elem_getitem k v d : NoDup (keys d) → (k, v) ∈ d → getitem k d = Some v.
Proof.
  unfold keys. induction d as [|[k' v'] d IH]; simpl.
  - intros _ H. by apply elem_of_nil in H.
  - rewrite NoDup_cons. intros [Hk Hd] [H|H]%elem_of_cons.
    + simplify_eq. by rewrite decide_True.
    + rewrite decide_False; [auto|].
      intros ->. apply Hk. apply list_elem_of_fmap. by exists (k', v).
Qed.

Lemma getitem_setitem k k' v d :
  getitem k' (setitem k v d) = if decide (k' = k) then Some v else getitem k' d.
Proof.
  induction d as [|[k0 v0] d IH]; simpl.
  - by case_decide.
  - destruct (decide (k = k0)) as [->|Hne]; simpl.
    + destruct (decide (k' = k0)); done.
    + rewrite IH. destruct (decide (k' = k0)) as [->|]; [|done].
      by rewrite decide_False.
Qed.

Lemma keys_setitem k v d :
  keys (setitem k v d) = if decide (k ∈ keys d) then keys d else keys d ++ [k].
Proof.
  unfold keys. induction d as [|[k0 v0] d IH]; csimpl.
  - destruct (decide (k ∈ [])) as [H|]; [by apply elem_of_nil in H | done].
  - destruct (decide (k = k0)) as [->|Hne]; csimpl.
    + destruct (decide (k0 ∈ k0 :: d.*1)) as [|H]; [done|].
      exfalso. apply H. left.
    + rewrite IH. destruct (decide (k ∈ d.*1)) as [Hin|Hnin];
        destruct (decide (k ∈ k0 :: d.*1)) as [Hin'|Hnin']; try done.
      * exfalso. apply Hnin'. by right.
      * apply elem_of_cons in Hin' as [?|?]; done.
Qed.

Lemma NoDup_setitem k v d : NoDup (keys d) → NoDup (keys (setitem k v d)).
Proof.
  intros Hd. rewrite keys_setitem. case_decide; [done|].
  apply NoDup_app. split; [done|]. split; [|apply NoDup_singleton].
  intros x Hx ->%list_elem_of_singleton. done.
Qed.

Lemma NoDup_update d items : NoDup (keys d) → NoDup (keys (update d items)).
Proof.
  unfold update. revert d.
  induction items as [|[k v] items IH]; simpl; [done|].
  intros d Hd. apply IH. by apply NoDup_setitem.
Qed.

Lemma update_app d items1 items2 :
  update d (items1 ++ items2) = update (update d items1) items2.
Proof. unfold update. apply fold_left_app. Qed.

Lemma last_binding_app k items1 items2 :
  last_binding k (items1 ++ items2) =
  match last_binding k items2 with
  | Some v => Some v
  | None => last_binding k items1
  end.
Proof. unfold last_binding. by rewrite reverse_app, getitem_app. Qed.

Lemma last_binding_cons k k' v items :
  last_binding k ((k', v) :: items) =
  match last_binding k items with
  | Some v' => Some v'
  | None => if decide (k = k') then Some v else None
  end.
Proof.
  change ((k', v) :: items) with ([(k', v)] ++ items).
  rewrite last_binding_app. destruct (last_binding k items); [done|].
  unfold last_binding; simpl. by case_decide.
Qed.

(** The dict after a run of assignments: the last assignment to a key
    wins, an unassigned key keeps its value. *)
Lemma getitem_update k d items :
  getitem k (update d items) =
  match last_binding k items with
  | Some v => Some v
  | None => getitem k d
  end.
Proof.
  unfold update. revert d.
  induction items as [|[k' v] items IH]; intros d; simpl; [done|].
  rewrite IH, last_binding_cons, getitem_setitem.
  destruct (last_binding k items); [done|]. by case_decide.
Qed.

Lemma last_binding_None k items : last_binding k items = None ↔ k ∉ keys items.
Proof.
  unfold last_binding. rewrite getitem_None. unfold keys.
  by rewrite <- (elem_of_reverse k (items.*1)), <- fmap_reverse.
Qed.

(** In a dict, whose keys are distinct, the last binding of a key is its
    only binding. *)
Lemma last_binding_dict k d : NoDup (keys d) → last_binding k d = getitem k d.
Proof.
  intros Hd. destruct (getitem k d) as [v|] eqn:Hg.
  - unfold last_binding. apply elem_getitem.
    + unfold keys. by rewrite fmap_reverse, reverse_Permutation.
    + rewrite elem_of_reverse. by apply getitem_Some_elem.
  - apply last_binding_None. by apply getitem_None.
Qed.

Lemma last_binding_update k items :
  last_binding k (update [] items) = last_binding k items.
Proof.
  rewrite last_binding_dict by (apply NoDup_update, NoDup_nil_2).
  rewrite getitem_update. by destruct (last_binding k items).
Qed.

Lemma elem_keys k d : k ∈ keys d ↔ is_Some (getitem k d).
Proof.
  rewrite <- not_eq_None_Some, getitem_None.
  split; [tauto | apply dec_stable].
Qed.

Lemma elem_keys_last k items : k ∈ keys items ↔ is_Some (last_binding k items).
Proof.
  rewrite <- not_eq_None_Some, last_binding_None.
  split; [tauto | apply dec_stable].
Qed.

(** The keys after a run of assignments: the old ones and the assigned
    ones. *)
Lemma keys_update k d items :
  k ∈ keys (update d items) ↔ k ∈ keys d ∨ k ∈ keys items.
Proof.
  rewrite (elem_keys_last k items), !elem_keys, getitem_update.
  destruct (last_binding k items) as [v|].
  - split; [right | ]; by exists v.
  - split; [by left | intros [H|[? H]]; done].
Qed.

End Facts.
End PyDictFacts.

(** ** Dict comprehensions *)

Section ComprehensionFacts.
Context {I : Type}.
Implicit Types (p : I → exn + list (string * value)) (xs : list I).

Lemma first_raise_app {A} (q : I → exn + A) xs ys :
  first_raise q (xs ++ ys) =
  match first_raise q xs with
  | Some e => Some e
  | None => first_raise q ys
  end.
Proof.
  induction xs as [|x xs IH]; simpl; [done|]. by destruct (q x).
Qed.

Lemma first_raise_None {A} (q : I → exn + A) xs :
  first_raise q xs = None ↔ Forall (λ x, ∃ a, q x = inr a) xs.
Proof.
  induction xs as [|x xs IH]; simpl.
  - split; [constructor | done].
  - rewrite Forall_cons, <- IH. destruct (q x) as [e|a].
    + split; [done | by intros [[? ?] _]].
    + split; [by eauto | by intros [_ ?]].
Qed.

(** The first part that raises decides the exception. *)
Lemma first_raise_at {A} (q : I → exn + A) pre x post e :
  Forall (λ x, ∃ a, q x = inr a) pre →
  q x = inl e →
  first_raise q (pre ++ x :: post) = Some e.
Proof.
  intros Hpre Hx. rewrite first_raise_app.
  apply first_raise_None in Hpre as ->. simpl. by rewrite Hx.
Qed.

Lemma first_raise_Exists {A} (q : I → exn + A) xs :
  Exists (λ x, ∃ e, q x = inl e) xs → ∃ e, first_raise q xs = Some e.
Proof.
  induction 1 as [x xs [e He]|x xs _ [e IH]]; simpl.
  - rewrite He. eauto.
  - destruct (q x); eauto.
Qed.

Lemma parsed_items_app p xs ys :
  parsed_items p (xs ++ ys) = parsed_items p xs ++ parsed_items p ys.
Proof. unfold parsed_items. apply flat_map_app. Qed.

Lemma parsed_items_no_key p xs k :
  Forall (λ x, ∀ d, p x = inr d → k ∉ PyDict.keys d) xs →
  k ∉ PyDict.keys (parsed_items p xs).
Proof.
  unfold parsed_items, PyDict.keys.
  induction 1 as [|x xs Hx _ IH]; simpl; [apply not_elem_of_nil|].
  rewrite fmap_app, elem_of_app. intros [H|H]; [|done].
  destruct (p x) as [|d] eqn:Hd.
  - by apply elem_of_nil in H.
  - by apply (Hx d).
Qed.

(** A comprehension either ends with the first exception or assigns the
    items of all its parts in order. *)
Lemma comprehension_eq p xs acc :
  comprehension p xs acc =
  match first_raise p xs with
  | Some e => inl e
  | None => inr (PyDict.update acc (parsed_items p xs))
  end.
Proof.
  revert acc. induction xs as [|x xs IH]; intros acc; simpl; [done|].
  destruct (p x) as [e|d]; simpl; [done|].
  rewrite IH. destruct (first_raise p xs); [done|].
  by rewrite PyDictFacts.update_app.
Qed.

End ComprehensionFacts.

(** ** Parsing a whole schema *)

Section SchemaFacts.
Import GeneralSettingsController.
Variable data : gmap string (list string).
Implicit Types (s : Section.t) (sections : list Section.t).

Local Abbreviation parse_input := (λ i : Input.t, Input.parse i data).
Local Abbreviation parse_section := (λ s : Section.t, Section.parse s data).

Lemma Section_parse_eq s :
  Section.parse s data =
  match first_raise parse_input (Section.inputs s) with
  | Some e => inl e
  | None => inr (PyDict.update [] (parsed_items parse_input (Section.inputs s)))
  end.
Proof. apply comprehension_eq. Qed.

(** The sections raise what their inputs raise, in the same order. *)
Lemma first_raise_sections sections :
  first_raise parse_section sections =
  first_raise parse_input (all_inputs sections).
Proof.
  unfold all_inputs. induction sections as [|s sections IH]; simpl; [done|].
  rewrite first_raise_app, Section_parse_eq.
  by destruct (first_raise parse_input (Section.inputs s)).
Qed.

(** Merging section by section leaves the same binding under every key as
    assigning the items of all inputs in one run. *)
Lemma last_binding_sections sections k :
  first_raise parse_input (all_inputs sections) = None →
  PyDict.last_binding k (parsed_items parse_section sections) =
  PyDict.last_binding k (parsed_items parse_input (all_inputs sections)).
Proof.
  unfold all_inputs. induction sections as [|s sections IH]; simpl; [done|].
  rewrite first_raise_app.
  destruct (first_raise parse_input (Section.inputs s)) eqn:Hs; [done|].
  intros Hr. rewrite parsed_items_app, !PyDictFacts.last_binding_app, IH by done.
  rewrite Section_parse_eq, Hs, PyDictFacts.last_binding_update. done.
Qed.

(** The parsed mapping of the whole schema. *)
Lemma parse_sections_eq sections :
  parse_sections sections data =
  match first_raise parse_input (all_inputs sections) with
  | Some e => inl e
  | None => inr (PyDict.update [] (parsed_items parse_section sections))
  end.
Proof.
  unfold parse_sections. by rewrite comprehension_eq, first_raise_sections.
Qed.

Lemma parse_sections_lookup sections m k :
  parse_sections sections data = inr m →
  PyDict.getitem k m =
  PyDict.last_binding k (parsed_items parse_input (all_inputs sections)).
Proof.
  rewrite parse_sections_eq.
  destruct (first_raise _ (all_inputs sections)) eqn:Hr; [done|].
  intros [= <-]. rewrite PyDictFacts.getitem_update; simpl.
  rewrite last_binding_sections by done.
  by destruct (PyDict.last_binding _ _).
Qed.

Lemma parse_sections_NoDup sections m :
  parse_sections sections data = inr m → NoDup (PyDict.keys m).
Proof.
  rewrite parse_sections_eq. destruct (first_raise _ _); [done|].
  intros [= <-]. apply PyDictFacts.NoDup_update, NoDup_nil_2.
Qed.

End SchemaFacts.

(** ** The commit loop *)

Section CommitFacts.
Import GeneralSettingsController.
Implicit Types (cfg : gmap string value) (data : PyDict.t value) (w : world).

Lemma commit_item_eq kv w :
  commit_item kv w =
  (inr (), World (Spec.apply_item (config w) kv)
                 (log w ++ Spec.item_events (config w) kv)
                 (storage w)).
Proof.
  destruct kv as [k v], w as [cfg l st].
  unfold commit_item, Spec.apply_item, Spec.item_events; simpl.
  destruct (is_None v); [|done].
  unfold bindM, Config.contains, Config.delitem, retM; simpl.
  destruct (cfg !! k) as [v'|] eqn:Hk.
  - rewrite bool_decide_eq_true_2 by eauto. simpl. by rewrite Hk.
  - rewrite bool_decide_eq_false_2 by (by intros [? ?]).
    by rewrite delete_id, app_nil_r.
Qed.

Lemma delta_events_agree cfg1 cfg2 data :
  (∀ k, k ∈ PyDict.keys data → cfg1 !! k = cfg2 !! k) →
  Spec.delta_events cfg1 data = Spec.delta_events cfg2 data.
Proof.
  unfold Spec.delta_events, PyDict.keys.
  induction data as [|[k v] data IH]; csimpl; [done|].
  intros H. rewrite IH by (intros; apply H; by right). f_equal.
  unfold Spec.item_events; simpl. by rewrite (H k) by left.
Qed.

Lemma apply_item_other cfg k v k' :
  k' ≠ k → Spec.apply_item cfg (k, v) !! k' = cfg !! k'.
Proof.
  intros Hne. unfold Spec.apply_item; simpl.
  destruct (is_None v); [by rewrite lookup_delete_ne | by rewrite lookup_insert_ne].
Qed.

Lemma apply_item_same cfg k v :
  Spec.apply_item cfg (k, v) !! k = Spec.stored v.
Proof.
  unfold Spec.apply_item, Spec.stored; simpl.
  destruct (is_None v); [apply lookup_delete_eq | apply lookup_insert_eq].
Qed.

(** The loop over a dict performs, item by item, what the spec asks. *)
Lemma for_each_commit data w :
  NoDup (PyDict.keys data) →
  for_each data commit_item w = (inr (), Spec.applied w data).
Proof.
  unfold PyDict.keys. revert w.
  induction data as [|[k v] data IH]; intros w.
  - intros _. unfold retM, Spec.applied, Spec.delta_events; simpl.
    rewrite app_nil_r. by destruct w.
  - rewrite fmap_cons. intros [Hk Hd]%NoDup_cons.
    cbn [for_each]. unfold bindM at 1.
    rewrite commit_item_eq, IH by done. unfold Spec.applied; simpl.
    do 2 f_equal. rewrite <- app_assoc. f_equal.
    change (Spec.delta_events (config w) ((k, v) :: data))
      with (Spec.item_events (config w) (k, v) ++ Spec.delta_events (config w) data).
    f_equal. apply delta_events_agree. intros k' Hk'.
    apply apply_item_other. by intros ->.
Qed.

(** The mapping after the delta: an assigned key holds what its last
    assignment stores, any other key is untouched. *)
Lemma apply_delta_lookup cfg data k :
  Spec.apply_delta cfg data !! k =
  match PyDict.last_binding k data with
  | Some v => Spec.stored v
  | None => cfg !! k
  end.
Proof.
  unfold Spec.apply_delta. revert cfg.
  induction data as [|[k' v] data IH]; intros cfg; simpl; [done|].
  rewrite IH, PyDictFacts.last_binding_cons.
  destruct (PyDict.last_binding k data); [done|].
  case_decide as Hk.
  - subst. apply apply_item_same.
  - by apply apply_item_other.
Qed.

Lemma delta_events_mutations cfg data :
  forallb Spec.is_mutation (Spec.delta_events cfg data) = true.
Proof.
  unfold Spec.delta_events. induction data as [|[k v] data IH]; simpl; [done|].
  rewrite forallb_app, IH, andb_true_r.
  unfold Spec.item_events; simpl.
  destruct (is_None v); [by destruct (cfg !! k) | done].
Qed.

End CommitFacts.

(** ** The two ways [processFormData] ends *)

Section ControllerFacts.
Import GeneralSettingsController.
Variable unquote_percent : string → string.
Variable sections : list Section.t.
Implicit Types (body text : string) (w : world).

(** When every input has parsed: the delta is applied, then the persist
    either goes through and the redirect is sent, or raises the fault of
    the storage. *)
Lemma processFormData_commits body text data w :
  PyStr.decode_utf8 body = inr text →
  parse_sections sections (Urllib.parse_qs unquote_percent text true) = inr data →
  processFormData unquote_percent sections body w = Spec.commit_outcome w data.
Proof.
  intros Hbody Hdata. unfold processFormData, bindM, lift.
  rewrite Hbody, Hdata, for_each_commit by (by eapply parse_sections_NoDup).
  unfold Config.store, send_redirect, Spec.commit_outcome, Spec.applied; simpl.
  destruct (storage w); [done|]. simpl. by rewrite <- !app_assoc.
Qed.

(** With an exception from the decoding or from an input: nothing has
    happened to the store. *)
Lemma processFormData_raises_decode body e w :
  PyStr.decode_utf8 body = inl e →
  processFormData unquote_percent sections body w = (inl e, w).
Proof.
  intros Hbody. unfold processFormData, bindM, lift. by rewrite Hbody.
Qed.

Lemma processFormData_raises_parse body text e w :
  PyStr.decode_utf8 body = inr text →
  first_raise (λ i, Input.parse i (Urllib.parse_qs unquote_percent text true))
    (all_inputs sections) = Some e →
  processFormData unquote_percent sections body w = (inl e, w).
Proof.
  intros Hbody He. unfold processFormData, bindM, lift.
  by rewrite Hbody, parse_sections_eq, He.
Qed.

End ControllerFacts.

(** ** Decoding the body *)

Section UrllibFacts.
Import Urllib.
Variable unquote_percent : string → string.
Implicit Types (qs key : string) (pairs : list (string * string)).

Lemma submitted_app k pairs1 pairs2 :
  Spec.submitted k (pairs1 ++ pairs2) =
  Spec.submitted k pairs1 ++ Spec.submitted k pairs2.
Proof. unfold Spec.submitted. apply omap_app. Qed.

Lemma elem_of_submitted k v pairs : v ∈ Spec.submitted k pairs ↔ (k, v) ∈ pairs.
Proof.
  unfold Spec.submitted. rewrite list_elem_of_omap. split.
  - intros [[k' v'] [Hin H]]; simpl in H. case_decide; by simplify_eq.
  - intros Hin. exists (k, v). split; [done|]. simpl. by rewrite decide_True.
Qed.

(** The loop of [parse_qs] from any intermediate dictionary. *)
Lemma fold_add_pair_lookup pairs (m : gmap string (list string)) k :
  fold_left add_pair pairs m !! k =
  match m !! k with
  | Some l => Some (l ++ Spec.submitted k pairs)
  | None => Spec.canonical pairs k
  end.
Proof.
  unfold Spec.canonical. revert m.
  induction pairs as [|[n v] pairs IH]; intros m; simpl.
  - destruct (m !! k); [by rewrite app_nil_r | done].
  - rewrite IH. unfold add_pair, Spec.submitted; simpl.
    destruct (decide (n = k)) as [->|Hne]; simpl.
    + destruct (m !! k) as [l|]; rewrite lookup_insert_eq; [|done].
      by rewrite <- app_assoc.
    + destruct (m !! n); by rewrite lookup_insert_ne.
Qed.

Lemma parse_qs_lookup qs keep k :
  parse_qs unquote_percent qs keep !! k =
  Spec.canonical (parse_qsl unquote_percent qs keep) k.
Proof. unfold parse_qs. by rewrite fold_add_pair_lookup, lookup_empty. Qed.

Lemma split1_no_sep sep key :
  PyStr.contains sep key = false →
  PyStr.split1 sep (key +:+ String sep "") = [key; ""].
Proof.
  induction key as [|c key IH]; simpl.
  - intros _. by rewrite Ascii.eqb_refl.
  - intros [Hc Hkey]%orb_false_iff. by rewrite Hc, IH.
Qed.

Lemma unquote_empty : unquote unquote_percent "" = "".
Proof. done. Qed.

(** A field [key=] with nothing after the equals sign, when blank values
    are kept. *)
Lemma parse_field_blank key :
  PyStr.contains "=" key = false →
  parse_field unquote_percent true (key +:+ "=") =
  [(unquote unquote_percent (PyStr.replace "+" " " key), "")].
Proof.
  intros Hkey. unfold parse_field. rewrite split1_no_sep by done.
  by destruct key.
Qed.

Lemma parse_qsl_field qs keep name_value p :
  name_value ∈ PyStr.split "&" qs →
  p ∈ parse_field unquote_percent keep name_value →
  p ∈ parse_qsl unquote_percent qs keep.
Proof.
  intros Hf Hp. unfold parse_qsl.
  apply list_elem_of_In, in_flat_map. exists name_value.
  split; by apply list_elem_of_In.
Qed.

Lemma split1_cases sep s :
  PyStr.split1 sep s =
  if PyStr.contains sep s then [Spec.before sep s; Spec.after sep s] else [s].
Proof.
  induction s as [|c s IH]; simpl; [done|].
  destruct (Ascii.eqb c sep); simpl; [done|].
  rewrite IH. by destruct (PyStr.contains sep s).
Qed.

Lemma before_after_no_sep sep s :
  PyStr.contains sep s = false → Spec.before sep s = s ∧ Spec.after sep s = "".
Proof.
  induction s as [|c s IH]; simpl; [done|].
  intros [-> Hs]%orb_false_iff. destruct (IH Hs) as [-> ->]. done.
Qed.

Lemma parse_field_keep (field : string) :
  Urllib.parse_field unquote_percent true field =
  if PyStr.is_empty field then []
  else [(Urllib.unquote unquote_percent
           (PyStr.replace "+" " " (Spec.before "=" field)),
         Urllib.unquote unquote_percent
           (PyStr.replace "+" " " (Spec.after "=" field)))].
Proof.
  unfold Urllib.parse_field. destruct (PyStr.is_empty field); [done|].
  rewrite split1_cases. destruct (PyStr.contains "=" field) eqn:Hc; simpl.
  - by rewrite orb_true_r.
  - by destruct (before_after_no_sep _ _ Hc) as [-> ->].
Qed.

(** With blank values kept, the pairs of the decoder are the canonical
    pairs of the body. *)
Lemma parse_qsl_body_pairs (text : string) :
  Urllib.parse_qsl unquote_percent text true = Spec.body_pairs unquote_percent text.
Proof.
  unfold Urllib.parse_qsl, Spec.body_pairs.
  induction (PyStr.split "&" text) as [|field l IH]; simpl; [done|].
  rewrite IH, parse_field_keep. destruct field as [|c field]; simpl.
  - by rewrite filter_cons_False by (by intros ?).
  - done.
Qed.

End UrllibFacts.

(** ** Sections *)

Section SectionFacts.
Implicit Types (s : Section.t) (w : world).

Lemma append_empty_r (x : string) : x +:+ "" = x.
Proof.
  induction x as [|c x IH]; [done|].
  change (String c x +:+ "") with (String c (x +:+ "")). by rewrite IH.
Qed.

Lemma join_empty_sep (l : list string) :
  PyStr.join "" l = foldr String.append "" l.
Proof.
  unfold PyStr.join. induction l as [|x l IH]; [done|].
  cbn [foldr]. rewrite <- IH. destruct l; simpl; [by rewrite append_empty_r | done].
Qed.

Lemma render_inputs_eq s w :
  Section.render_inputs s w = (inr (Spec.rendered (config w) (Section.inputs s)), w).
Proof.
  unfold Section.render_inputs, Spec.rendered. rewrite join_empty_sep.
  do 2 f_equal. induction (Section.inputs s) as [|i l IH]; simpl; [done|].
  by rewrite IH.
Qed.

(** The template, filled in. *)
Lemma format_template (title body : string) :
  Format.format Section.template [("title", title); ("inputs", body)] =
  inr (Spec.container title body).
Proof. vm_compute. reflexivity. Qed.

Lemma parsed_items_Forall2 {I} (p : I → exn + list (string * value)) xs ds :
  Forall2 (λ x d, p x = inr d) xs ds →
  first_raise p xs = None ∧ parsed_items p xs = concat ds.
Proof.
  unfold parsed_items. induction 1 as [|x d xs ds Hx _ [IH1 IH2]]; simpl; [done|].
  by rewrite Hx, IH1, IH2.
Qed.

End SectionFacts.

(** * The claims *)

Section Claims.
Import GeneralSettingsController.
Variable unquote_percent : string → string.
Variable sections : list Section.t.
Implicit Types (body text : string) (w : world) (data : PyDict.t value).

Local Abbreviation form text := (Urllib.parse_qs unquote_percent text true).

(** C1. If the parse of any input raises during the write path, the request
    ends with an exception and the world is the one it started in: no key
    of the configuration was set or deleted, nothing was persisted, no
    response was sent.  Every parse has run before the first mutation. *)
Theorem C1_parse_error_leaves_store_untouched body text w :
  PyStr.decode_utf8 body = inr text →
  Exists (λ i, ∃ e, Input.parse i (form text) = inl e) (all_inputs sections) →
  ∃ e, processFormData unquote_percent sections body w = (inl e, w).
Proof.
  intros Hbody [e He]%first_raise_Exists. exists e.
  by eapply processFormData_raises_parse.
Qed.

(** C2, as amended. The parsed mapping is applied as a delta: a key mapped
    to [None] is absent afterwards (deleted when it was present, untouched
    when it was not), a key mapped to anything else holds that value, every
    other key is as before.  Then the persist is called, once: when it goes
    through, the store is persisted exactly once and the redirect follows;
    when the storage fails, its exception ends the request, nothing is
    persisted and the delta stays applied in memory. *)
Theorem C2_commit_applies_delta body text data w :
  PyStr.decode_utf8 body = inr text →
  parse_sections sections (form text) = inr data →
  ∃ r w' new,
    processFormData unquote_percent sections body w = (r, w') ∧
    (∀ k v, (k, v) ∈ data → v = VNone → config w' !! k = None) ∧
    (∀ k v, (k, v) ∈ data → v ≠ VNone → config w' !! k = Some v) ∧
    (∀ k, k ∉ PyDict.keys data → config w' !! k = config w !! k) ∧
    log w' = log w ++ new ∧
    match storage w with
    | None =>
        r = inr () ∧
        new = Spec.delta_events (config w) data
                ++ [EvStore (config w'); EvRedirect "/generalsettings"] ∧
        length (filter (λ e, Spec.is_store e = true) new) = 1
    | Some e =>
        r = inl e ∧
        new = Spec.delta_events (config w) data ∧
        length (filter (λ e, Spec.is_store e = true) new) = 0
    end.
Proof.
  intros Hbody Hdata.
  pose proof (parse_sections_NoDup _ _ _ Hdata) as Hnd.
  assert (∀ k v, (k, v) ∈ data →
    Spec.apply_delta (config w) data !! k = Spec.stored v) as Hin.
  { intros k v Hkv. rewrite apply_delta_lookup.
    rewrite PyDictFacts.last_binding_dict by done.
    by rewrite (PyDictFacts.elem_getitem k v). }
  assert (filter (λ e, Spec.is_store e = true)
            (Spec.delta_events (config w) data) = []) as Hnone.
  { pose proof (delta_events_mutations (config w) data) as Hm.
    induction (Spec.delta_events (config w) data) as [|ev l IH]; [done|].
    simpl in Hm. apply andb_true_iff in Hm as [Hev Hl].
    rewrite filter_cons_False; [by apply IH | by destruct ev]. }
  rewrite (processFormData_commits _ _ _ _ _ _ Hbody Hdata).
  unfold Spec.commit_outcome, Spec.applied.
  destruct (storage w) as [e|]; eexists _, _, _; (split; [done|]); simpl.
  - split_and!; try done.
    + intros k v Hkv ->. by rewrite (Hin k VNone).
    + intros k v Hkv Hv. rewrite (Hin k v) by done. by destruct v.
    + intros k Hk. rewrite apply_delta_lookup.
      by apply PyDictFacts.last_binding_None in Hk as ->.
    + by rewrite Hnone.
  - split_and!; try done.
    + intros k v Hkv ->. by rewrite (Hin k VNone).
    + intros k v Hkv Hv. rewrite (Hin k v) by done. by destruct v.
    + intros k Hk. rewrite apply_delta_lookup.
      by apply PyDictFacts.last_binding_None in Hk as ->.
    + by rewrite filter_app, length_app, Hnone.
Qed.

(** C3, as amended. The write path does not collect errors: the first input,
    in declared order, whose parse raises ends the request with its
    exception; the store is untouched and no response is sent. *)
Theorem C3_first_error_propagates body text pre i post e w :
  PyStr.decode_utf8 body = inr text →
  all_inputs sections = pre ++ i :: post →
  Forall (λ j, ∃ d, Input.parse j (form text) = inr d) pre →
  Input.parse i (form text) = inl e →
  processFormData unquote_percent sections body w = (inl e, w).
Proof.
  intros Hbody Hsplit Hpre Hi.
  eapply processFormData_raises_parse; [done|].
  rewrite Hsplit. by apply first_raise_at.
Qed.

(** C5, as amended. When no parse raises and the persist goes through, the
    request ends with the redirect to the read view, sent last: before it
    only mutations of the store and then the persist, which saves the
    mapping with the whole delta applied.  When the storage fails, the
    request ends with its exception after the mutations, and no redirect
    is sent. *)
Theorem C5_redirect_after_persist body text w :
  PyStr.decode_utf8 body = inr text →
  Forall (λ i, ∃ d, Input.parse i (form text) = inr d) (all_inputs sections) →
  ∃ data r w' mutations,
    parse_sections sections (form text) = inr data ∧
    processFormData unquote_percent sections body w = (r, w') ∧
    config w' = Spec.apply_delta (config w) data ∧
    forallb Spec.is_mutation mutations = true ∧
    match storage w with
    | None =>
        r = inr () ∧
        log w' = log w ++ mutations
                   ++ [EvStore (config w'); EvRedirect "/generalsettings"]
    | Some e =>
        r = inl e ∧
        log w' = log w ++ mutations
    end.
Proof.
  intros Hbody Hall%first_raise_None.
  pose proof (parse_sections_eq (form text) sections) as Hdata.
  rewrite Hall in Hdata.
  rewrite (processFormData_commits _ _ _ _ _ _ Hbody Hdata).
  unfold Spec.commit_outcome, Spec.applied.
  destruct (storage w) as [e|];
    eexists _, _, _, (Spec.delta_events (config w) _);
    (split; [done|]); (split; [done|]); simpl;
    split_and!; try done; apply delta_events_mutations.
Qed.

(** C6. The body is decoded once into the canonical mapping: a name is
    bound to the strings submitted under it in the fields of the body, in
    body order.  The parse of every section and input is applied to that
    mapping, and the outcome of the request is a function of it alone. *)
Theorem C6_parse_sees_canonical_mapping body text w :
  PyStr.decode_utf8 body = inr text →
  ∃ mapping : gmap string (list string),
    (∀ k, mapping !! k =
          Spec.canonical (Spec.body_pairs unquote_percent text) k) ∧
    processFormData unquote_percent sections body w =
    match first_raise (λ i, Input.parse i mapping) (all_inputs sections) with
    | Some e => (inl e, w)
    | None =>
        Spec.commit_outcome w
          (PyDict.update []
             (parsed_items (λ s, Section.parse s mapping) sections))
    end.
Proof.
  intros Hbody. exists (form text).
  split; [intros k; by rewrite parse_qs_lookup, parse_qsl_body_pairs|].
  pose proof (parse_sections_eq (form text) sections) as Hdata.
  destruct (first_raise _ (all_inputs sections)) as [e|] eqn:Hr.
  - by eapply processFormData_raises_parse.
  - by eapply processFormData_commits.
Qed.

(** C8. In the commit loop the deletion marker is [None] and nothing else:
    a key of the parsed mapping is absent afterwards exactly when its value
    is [None]; any other value, the falsy ones included, is stored under
    the key.  This holds whether or not the persist that follows goes
    through; on a sound storage the request returns normally. *)
Theorem C8_only_None_deletes body text data k v w :
  PyStr.decode_utf8 body = inr text →
  parse_sections sections (form text) = inr data →
  (k, v) ∈ data →
  ∃ r w',
    processFormData unquote_percent sections body w = (r, w') ∧
    (storage w = None → r = inr ()) ∧
    (config w' !! k = None ↔ v = VNone) ∧
    (v ≠ VNone → config w' !! k = Some v) ∧
    (truthy v = false → v ≠ VNone → config w' !! k = Some v).
Proof.
  intros Hbody Hdata Hkv.
  pose proof (parse_sections_NoDup _ _ _ Hdata) as Hnd.
  assert (Spec.apply_delta (config w) data !! k = Spec.stored v) as Hk.
  { rewrite apply_delta_lookup, PyDictFacts.last_binding_dict by done.
    by rewrite (PyDictFacts.elem_getitem k v). }
  rewrite (processFormData_commits _ _ _ _ _ _ Hbody Hdata).
  unfold Spec.commit_outcome, Spec.applied.
  destruct (storage w) as [e|]; eexists _, _; (split; [done|]); simpl;
    rewrite Hk; (split; [done|]);
    destruct v; simpl; split_and!; try done; by intros [=].
Qed.

(** C9. When two inputs, in one section or in two, yield the same key, the
    merged mapping holds the value of the last input in declared order that
    yields it; the merge raises nothing, and neither did the construction
    of the sections. *)
Theorem C9_last_input_wins raw pre i1 mid i2 post d1 d2 k v :
  all_inputs sections = pre ++ i1 :: mid ++ i2 :: post →
  Forall (λ i, ∃ d, Input.parse i raw = inr d) (all_inputs sections) →
  Input.parse i1 raw = inr d1 → k ∈ PyDict.keys d1 →
  Input.parse i2 raw = inr d2 → PyDict.last_binding k d2 = Some v →
  Forall (λ i, ∀ d, Input.parse i raw = inr d → k ∉ PyDict.keys d) post →
  Forall (λ s, Section.init (Section.title s) (Section.inputs s) = inr s)
    sections ∧
  ∃ m,
    parse_sections sections raw = inr m ∧
    PyDict.getitem k m = Some v.
Proof.
  intros Hsplit Hall%first_raise_None _ _ Hd2 Hv Hpost. split.
  { apply Forall_forall. by intros []. }
  pose proof (parse_sections_eq raw sections) as Hm. rewrite Hall in Hm.
  eexists. split; [done|].
  rewrite (parse_sections_lookup _ _ _ _ Hm), Hsplit.
  rewrite app_comm_cons, app_assoc.
  change (i2 :: post) with ([i2] ++ post).
  rewrite !parsed_items_app, !PyDictFacts.last_binding_app.
  assert (PyDict.last_binding k
            (parsed_items (λ i, Input.parse i raw) post) = None) as ->.
  { by apply PyDictFacts.last_binding_None, parsed_items_no_key. }
  unfold parsed_items at 1; simpl. by rewrite Hd2, app_nil_r, Hv.
Qed.

(** C4, as amended. Two inputs on one store key are not detected when the
    schema is built: the construction of a section checks nothing and
    always succeeds.  The clash is settled when the parses are merged,
    where the value of the later input replaces that of the earlier. *)
Theorem C4_duplicate_key_accepted title i1 i2 raw d1 d2 k v :
  Input.parse i1 raw = inr d1 → k ∈ PyDict.keys d1 →
  Input.parse i2 raw = inr d2 → PyDict.last_binding k d2 = Some v →
  (∀ inputs, Section.init title inputs = inr (Section.Section title inputs)) ∧
  ∃ m,
    Section.parse (Section.Section title [i1; i2]) raw = inr m ∧
    PyDict.getitem k m = Some v.
Proof.
  intros Hd1 _ Hd2 Hv. split; [done|].
  destruct (parsed_items_Forall2 (λ i, Input.parse i raw) [i1; i2] [d1; d2])
    as [Hr Hitems]; [by repeat constructor|].
  rewrite Section_parse_eq. cbn [Section.inputs]. rewrite Hr, Hitems.
  eexists. split; [done|]. simpl. rewrite app_nil_r.
  rewrite PyDictFacts.getitem_update, PyDictFacts.last_binding_app. by rewrite Hv.
Qed.

(** C7. A section renders, whatever its inputs parse to, as the markup of
    its inputs, one after the other in declared order, inside one container
    headed by its title; and it parses to the union of what its inputs
    parse to, as one mapping. *)
Theorem C7_section_render_and_parse (s : Section.t) raw ds w :
  Section.render s w =
    (inr (Spec.container (Section.title s)
            (Spec.rendered (config w) (Section.inputs s))), w) ∧
  (Forall2 (λ i d, Input.parse i raw = inr d) (Section.inputs s) ds →
   ∃ m,
     Section.parse s raw = inr m ∧
     NoDup (PyDict.keys m) ∧
     (∀ k, k ∈ PyDict.keys m ↔ ∃ d, d ∈ ds ∧ k ∈ PyDict.keys d) ∧
     (∀ k, PyDict.getitem k m = PyDict.last_binding k (concat ds))).
Proof.
  split.
  { unfold Section.render, bindM, lift.
    by rewrite render_inputs_eq, format_template. }
  intros [Hr Hitems]%parsed_items_Forall2.
  rewrite Section_parse_eq, Hr, Hitems. eexists. split; [done|].
  split_and!.
  - apply PyDictFacts.NoDup_update, NoDup_nil_2.
  - intros k. rewrite PyDictFacts.keys_update.
    assert (k ∈ PyDict.keys (concat ds) ↔ ∃ d, d ∈ ds ∧ k ∈ PyDict.keys d) as <-.
    { clear. unfold PyDict.keys. induction ds as [|d ds IH]; simpl.
      - rewrite elem_of_nil. split; [done|]. by intros (? & ?%elem_of_nil & _).
      - rewrite fmap_app, elem_of_app, IH. split.
        + intros [?|(d' & ? & ?)]; [exists d | exists d']; split; try done;
            [left | by right].
        + intros (d' & [->|?]%elem_of_cons & ?); [by left | right; by exists d']. }
    split; [intros [H|H]; [by apply elem_of_nil in H | done] | by right].
  - intros k. rewrite PyDictFacts.getitem_update.
    by destruct (PyDict.last_binding k (concat ds)).
Qed.

(** C10. The decoder keeps blank values: a field [key=] of the body binds
    the decoded key to a list that holds the empty string, while a name no
    field carries is bound to nothing; so submitted empty and omitted are
    told apart. *)
Theorem C10_blank_values_kept text key :
  PyStr.contains "=" key = false →
  (key +:+ "=") ∈ PyStr.split "&" text →
  (∃ l, form text !! Urllib.unquote unquote_percent (PyStr.replace "+" " " key)
          = Some l ∧ "" ∈ l) ∧
  (∀ k, k ∉ (Urllib.parse_qsl unquote_percent text true).*1 →
        form text !! k = None).
Proof.
  intros Hkey Hfield. split.
  - set (name := Urllib.unquote _ _).
    assert ((name, "") ∈ Urllib.parse_qsl unquote_percent text true) as Hin.
    { eapply parse_qsl_field; [done|].
      rewrite parse_field_blank by done. left. }
    apply elem_of_submitted in Hin.
    rewrite parse_qs_lookup. unfold Spec.canonical.
    destruct (Spec.submitted name _) as [|x l]; [by apply elem_of_nil in Hin|].
    by eexists.
  - intros k Hk. rewrite parse_qs_lookup. unfold Spec.canonical.
    destruct (Spec.submitted k _) as [|x l] eqn:Hs; [done|].
    exfalso. apply Hk. apply list_elem_of_fmap. exists (k, x). split; [done|].
    apply elem_of_submitted. rewrite Hs. left.
Qed.

End Claims.

(** * The claims at work on the example schema *)

Section Witnesses.
Import GeneralSettingsController Example.

Lemma C1_witness :
  ∃ e, processFormData no_percent schema bad store0 = (inl e, store0).
Proof.
  apply (C1_parse_error_leaves_store_untouched no_percent schema bad bad store0).
  - reflexivity.
  - do 2 apply Exists_cons_tl. apply Exists_cons_hd.
    eexists. vm_compute. reflexivity.
Defined.

Lemma C2_witness :
  ∃ r w' new,
    processFormData no_percent schema good store0 = (r, w') ∧
    (∀ k v, (k, v) ∈ parsed → v = VNone → config w' !! k = None) ∧
    (∀ k v, (k, v) ∈ parsed → v ≠ VNone → config w' !! k = Some v) ∧
    (∀ k, k ∉ PyDict.keys parsed → config w' !! k = config store0 !! k) ∧
    log w' = log store0 ++ new ∧
    r = inr () ∧
    new = Spec.delta_events (config store0) parsed
            ++ [EvStore (config w'); EvRedirect "/generalsettings"] ∧
    length (filter (λ e, Spec.is_store e = true) new) = 1.
Proof.
  apply (C2_commit_applies_delta no_percent schema good good parsed store0).
  - reflexivity.
  - vm_compute. reflexivity.
Defined.

(** C2, as the spec states it, fails: on a storage that cannot be written
    the parsed mapping is applied, the request ends with the storage error,
    and the store has been persisted not once but never. *)
Lemma C2_counterexample :
  parse_sections schema (Urllib.parse_qs no_percent good true) = inr parsed ∧
  processFormData no_percent schema good broken
    = (inl disk_full, Spec.applied broken parsed) ∧
  config (Spec.applied broken parsed) !! "receiver_name" = Some (VStr "New") ∧
  length (filter (λ e, Spec.is_store e = true)
            (log (Spec.applied broken parsed))) = 0.
Proof. vm_compute. done. Qed.

Lemma C3_witness :
  processFormData no_percent schema bad store0 =
  (inl (Raise "ValidationError" "fft_fps"), store0).
Proof.
  apply (C3_first_error_propagates no_percent schema bad bad
           [Inputs.TextInput widget "receiver_name";
            Inputs.NumberInput widget "receiver_asl"]
           (Inputs.NumberInput widget "fft_fps")
           [Inputs.CheckboxInput widget "aprs_igate_enabled"]).
  - reflexivity.
  - reflexivity.
  - repeat constructor; eexists; vm_compute; reflexivity.
  - vm_compute. reflexivity.
Defined.

Lemma C4_witness :
  (∀ inputs, Section.init "Demodulator settings" inputs
             = inr (Section.Section "Demodulator settings" inputs)) ∧
  ∃ m,
    Section.parse (Section.Section "Demodulator settings" clash)
      (Urllib.parse_qs no_percent "squelch=on" true) = inr m ∧
    PyDict.getitem "squelch" m = Some (VBool true).
Proof.
  apply (C4_duplicate_key_accepted "Demodulator settings"
           (Inputs.TextInput widget "squelch")
           (Inputs.CheckboxInput widget "squelch")
           (Urllib.parse_qs no_percent "squelch=on" true)
           [("squelch", VStr "on")] [("squelch", VBool true)]
           "squelch" (VBool true)).
  - vm_compute. reflexivity.
  - left.
  - vm_compute. reflexivity.
  - reflexivity.
Defined.

Lemma C5_witness :
  ∃ data r w' mutations,
    parse_sections schema (Urllib.parse_qs no_percent good true) = inr data ∧
    processFormData no_percent schema good store0 = (r, w') ∧
    config w' = Spec.apply_delta (config store0) data ∧
    forallb Spec.is_mutation mutations = true ∧
    r = inr () ∧
    log w' = log store0 ++ mutations
               ++ [EvStore (config w'); EvRedirect "/generalsettings"].
Proof.
  apply (C5_redirect_after_persist no_percent schema good good store0).
  - reflexivity.
  - repeat constructor; eexists; vm_compute; reflexivity.
Defined.

(** C5, as the spec states it, fails: no parse raises, yet on a storage
    that cannot be written the request ends with the storage error and no
    redirect is sent. *)
Lemma C5_counterexample :
  Forall (λ i, ∃ d, Input.parse i (Urllib.parse_qs no_percent good true)
                    = inr d) (all_inputs schema) ∧
  (processFormData no_percent schema good broken).1 = inl disk_full ∧
  EvRedirect "/generalsettings"
    ∉ log (processFormData no_percent schema good broken).2.
Proof.
  split_and!.
  - repeat constructor; eexists; vm_compute; reflexivity.
  - vm_compute. reflexivity.
  - assert (log (processFormData no_percent schema good broken).2
            = [ EvSet "receiver_name" (VStr "New");
                EvSet "fft_fps" (VInt 25);
                EvDel "aprs_igate_enabled" ]) as ->.
    { vm_compute. reflexivity. }
    intros H. repeat (apply elem_of_cons in H as [H|H]; [discriminate H|]).
    by apply elem_of_nil in H.
Qed.

Lemma C6_witness :
  ∃ mapping : gmap string (list string),
    (∀ k, mapping !! k = Spec.canonical (Spec.body_pairs no_percent good) k) ∧
    processFormData no_percent schema good store0 =
    match first_raise (λ i, Input.parse i mapping) (all_inputs schema) with
    | Some e => (inl e, store0)
    | None =>
        Spec.commit_outcome store0
          (PyDict.update []
             (parsed_items (λ s, Section.parse s mapping) schema))
    end.
Proof.
  apply (C6_parse_sees_canonical_mapping no_percent schema good good store0).
  reflexivity.
Defined.

Lemma C7_witness :
  Section.render receiver_information store0 =
    (inr (Spec.container (Section.title receiver_information)
            (Spec.rendered (config store0)
               (Section.inputs receiver_information))), store0) ∧
  ∃ m,
    Section.parse receiver_information (Urllib.parse_qs no_percent good true)
      = inr m ∧
    NoDup (PyDict.keys m) ∧
    (∀ k, k ∈ PyDict.keys m ↔
          ∃ d, d ∈ [ [("receiver_name", VStr "New")]; [("receiver_asl", VNone)] ]
               ∧ k ∈ PyDict.keys d) ∧
    (∀ k, PyDict.getitem k m =
          PyDict.last_binding k
            (concat [ [("receiver_name", VStr "New")];
                      [("receiver_asl", VNone)] ])).
Proof.
  destruct (C7_section_render_and_parse receiver_information
              (Urllib.parse_qs no_percent good true)
              [ [("receiver_name", VStr "New")]; [("receiver_asl", VNone)] ]
              store0) as [Hrender Hparse].
  split; [exact Hrender|]. apply Hparse.
  repeat constructor; vm_compute; reflexivity.
Defined.

Lemma C8_witness :
  ∃ r w',
    processFormData no_percent schema blank store0 = (r, w') ∧
    (storage store0 = None → r = inr ()) ∧
    (config w' !! "fft_fps" = None ↔ VInt 0 = VNone) ∧
    (VInt 0 ≠ VNone → config w' !! "fft_fps" = Some (VInt 0)) ∧
    (truthy (VInt 0) = false → VInt 0 ≠ VNone →
     config w' !! "fft_fps" = Some (VInt 0)).
Proof.
  apply (C8_only_None_deletes no_percent schema blank blank
           [ ("receiver_name", VStr ""); ("receiver_asl", VNone);
             ("fft_fps", VInt 0); ("aprs_igate_enabled", VNone) ]
           "fft_fps" (VInt 0) store0).
  - reflexivity.
  - vm_compute. reflexivity.
  - do 2 right. left.
Defined.

Lemma C9_witness :
  Forall (λ s, Section.init (Section.title s) (Section.inputs s) = inr s)
    clash_schema ∧
  ∃ m,
    parse_sections clash_schema (Urllib.parse_qs no_percent "squelch=on" true)
      = inr m ∧
    PyDict.getitem "squelch" m = Some (VBool true).
Proof.
  apply (C9_last_input_wins clash_schema
           (Urllib.parse_qs no_percent "squelch=on" true)
           [] (Inputs.TextInput widget "squelch")
           [] (Inputs.CheckboxInput widget "squelch") []
           [("squelch", VStr "on")] [("squelch", VBool true)]
           "squelch" (VBool true)).
  - reflexivity.
  - repeat constructor; eexists; vm_compute; reflexivity.
  - vm_compute. reflexivity.
  - left.
  - vm_compute. reflexivity.
  - reflexivity.
  - constructor.
Defined.

Lemma C10_witness :
  (∃ l, Urllib.parse_qs no_percent blank true
          !! Urllib.unquote no_percent (PyStr.replace "+" " " "receiver_name")
        = Some l ∧ "" ∈ l) ∧
  (∀ k, k ∉ (Urllib.parse_qsl no_percent blank true).*1 →
        Urllib.parse_qs no_percent blank true !! k = None).
Proof.
  apply (C10_blank_values_kept no_percent blank "receiver_name").
  - reflexivity.
  - left.
Defined.

(** C3, as the spec states it, fails: two numeric fields are invalid, each
    parse raises its own error, and the request ends with the first one
    alone; the second is reported nowhere, nothing is rendered again, and
    the world is as it was. *)
Lemma C3_counterexample :
  Spec.raised_by (all_inputs schema) (Urllib.parse_qs no_percent worse true)
    = [ Raise "ValidationError" "receiver_asl";
        Raise "ValidationError" "fft_fps" ] ∧
  processFormData no_percent schema worse store0
    = (inl (Raise "ValidationError" "receiver_asl"), store0) ∧
  ¬ (Spec.raised_by (all_inputs schema) (Urllib.parse_qs no_percent worse true)
       ⊆ Spec.reported (processFormData no_percent schema worse store0).1).
Proof.
  split_and!.
  - vm_compute. reflexivity.
  - vm_compute. reflexivity.
  - intros Hsub.
    assert (Raise "ValidationError" "fft_fps"
              ∈ [Raise "ValidationError" "receiver_asl"]) as Hin.
    { apply Hsub. right. left. }
    apply list_elem_of_singleton in Hin. discriminate Hin.
Qed.

(** C4, as the spec states it, fails: a section built from two inputs on
    the key [squelch] is built without an exception, and its parse merges
    the two results without one, keeping the later value. *)
Lemma C4_counterexample :
  Forall (λ i, ∃ d, Input.parse i (Urllib.parse_qs no_percent "squelch=on" true)
                      = inr d ∧ "squelch" ∈ PyDict.keys d) clash ∧
  ¬ (∃ e, Section.init "Demodulator settings" clash = inl e) ∧
  Section.parse (Section.Section "Demodulator settings" clash)
    (Urllib.parse_qs no_percent "squelch=on" true)
    = inr [("squelch", VBool true)].
Proof.
  split_and!.
  - repeat constructor; eexists; (split; [vm_compute; reflexivity | left]).
  - by intros [e He].
  - vm_compute. reflexivity.
Qed.

(** The end-to-end example of the spec: the name is overwritten, the frame
    rate is set, and the unchecked box is removed whatever it held. *)
Example end_to_end :
  let w' := (processFormData no_percent schema good store0).2 in
  (processFormData no_percent schema good store0).1 = inr () ∧
  config w' = {[ "receiver_name" := VStr "New"; "fft_fps" := VInt 25 ]} ∧
  log w' = [ EvSet "receiver_name" (VStr "New");
             EvSet "fft_fps" (VInt 25);
             EvDel "aprs_igate_enabled";
             EvStore (config w');
             EvRedirect "/generalsettings" ].
Proof. vm_compute. done. Qed.

(** Without [keep_blank_values] the empty field would be dropped. *)
Example blank_dropped_without_flag :
  Urllib.parse_qs no_percent blank false !! "receiver_name" = None ∧
  Urllib.parse_qs no_percent blank true !! "receiver_name" = Some [""].
Proof. vm_compute. done. Qed.

(** A name that repeats keeps its values in the order of the body. *)
Example repeated_key :
  Urllib.parse_qs no_percent "mode=ft8&band=20m&mode=wspr" true
    !! "mode" = Some ["ft8"; "wspr"].
Proof. vm_compute. done. Qed.

(** Bytes that are not UTF-8 end the request before anything is parsed. *)
Example undecodable_body :
  processFormData no_percent schema (String "255" "a=1") store0 =
  (inl (Raise "UnicodeDecodeError" "'utf-8' codec can't decode bytes"), store0).
Proof. vm_compute. done. Qed.

End Witnesses.

(** * Beyond the claims *)

(** ** Merging without clashes *)

Section MergeFacts.
Import GeneralSettingsController.
Implicit Types (d items : PyDict.t value) (k : string).

Lemma setitem_fresh k (v : value) d :
  k ∉ PyDict.keys d → PyDict.setitem k v d = d ++ [(k, v)].
Proof.
  unfold PyDict.keys. induction d as [|[k' v'] d IH]; csimpl; [done|].
  rewrite not_elem_of_cons. intros [Hne Hk].
  destruct (decide (k = k')); [done|]. by rewrite IH.
Qed.

(** Assignments to keys that are new and distinct only append. *)
Lemma update_fresh d items :
  NoDup (PyDict.keys (d ++ items)) → PyDict.update d items = d ++ items.
Proof.
  unfold PyDict.update, PyDict.keys. revert d.
  induction items as [|[k v] items IH]; intros d; simpl.
  - by rewrite app_nil_r.
  - intros Hnd. rewrite setitem_fresh.
    + rewrite IH; rewrite <- app_assoc; done.
    + rewrite fmap_app in Hnd. apply NoDup_app in Hnd as (_ & Hd & _).
      intros Hk. apply (Hd k Hk). csimpl. left.
Qed.

Lemma NoDup_keys_app d1 d2 :
  NoDup (PyDict.keys (d1 ++ d2)) →
  NoDup (PyDict.keys d1) ∧ NoDup (PyDict.keys d2).
Proof.
  unfold PyDict.keys. rewrite fmap_app. intros (? & _ & ?)%NoDup_app. done.
Qed.

(** When the items of all inputs have distinct keys, merging section by
    section is plain concatenation. *)
Lemma parsed_items_sections_distinct raw sections :
  first_raise (λ i, Input.parse i raw) (all_inputs sections) = None →
  NoDup (PyDict.keys (parsed_items (λ i, Input.parse i raw) (all_inputs sections))) →
  parsed_items (λ s, Section.parse s raw) sections =
  parsed_items (λ i, Input.parse i raw) (all_inputs sections).
Proof.
  unfold all_inputs. induction sections as [|s sections IH]; simpl; [done|].
  rewrite first_raise_app, parsed_items_app.
  destruct (first_raise _ (Section.inputs s)) eqn:Hs; [done|].
  intros Hr [Hnd1 Hnd2]%NoDup_keys_app.
  rewrite Section_parse_eq, Hs, IH by done.
  by rewrite (update_fresh []).
Qed.

Lemma parse_sections_distinct sections raw ds :
  Forall2 (λ i d, Input.parse i raw = inr d) (all_inputs sections) ds →
  NoDup (PyDict.keys (concat ds)) →
  parse_sections sections raw = inr (concat ds).
Proof.
  intros [Hr Hitems]%parsed_items_Forall2 Hnd.
  rewrite parse_sections_eq, Hr.
  rewrite parsed_items_sections_distinct, Hitems by (by rewrite ?Hitems).
  by rewrite (update_fresh []).
Qed.

(** X1. When every input parses and no two inputs yield the same key, the
    mapping [processFormData] commits is the items of the inputs, one after
    the other in declared order: nothing is overwritten or reordered. *)
Theorem X1_distinct_keys_concatenate sections raw ds :
  Forall2 (λ i d, Input.parse i raw = inr d) (all_inputs sections) ds →
  NoDup (PyDict.keys (concat ds)) →
  parse_sections sections raw = inr (concat ds).
Proof. apply parse_sections_distinct. Qed.

Lemma X1_witness :
  parse_sections Example.schema
    (Urllib.parse_qs Example.no_percent Example.good true)
  = inr (concat [ [("receiver_name", VStr "New")]; [("receiver_asl", VNone)];
                  [("fft_fps", VInt 25)]; [("aprs_igate_enabled", VNone)] ]).
Proof.
  apply (X1_distinct_keys_concatenate Example.schema
           (Urllib.parse_qs Example.no_percent Example.good true)
           [ [("receiver_name", VStr "New")]; [("receiver_asl", VNone)];
             [("fft_fps", VInt 25)]; [("aprs_igate_enabled", VNone)] ]).
  - repeat constructor; vm_compute; reflexivity.
  - apply (bool_decide_unpack (NoDup _)). vm_compute. exact I.
Defined.

Lemma all_inputs_build (implement : Schema.decl → Input.t)
    (table : list (string * list Schema.decl)) :
  all_inputs (map (Schema.build_section implement) table) =
  map implement (flat_map snd table).
Proof.
  unfold all_inputs. induction table as [|[title ds] table IH]; simpl; [done|].
  by rewrite IH, map_app.
Qed.

Lemma ids_NoDup : NoDup Schema.ids.
Proof. apply (bool_decide_unpack (NoDup _)). vm_compute. exact I. Qed.

(** X2. The store keys the shipped schema declares are pairwise distinct.
    So when every input parses to one item under its own key, the mapping
    to commit holds exactly the declared keys, in declared order, each with
    the value of its own input: no input overwrites another. *)
Theorem X2_shipped_schema_has_no_clash
    (implement : Schema.decl → Input.t) raw (value_of : Schema.decl → value) :
  (∀ x, x ∈ Schema.decls →
        Input.parse (implement x) raw = inr [(Schema.id x, value_of x)]) →
  NoDup Schema.ids ∧
  parse_sections (Schema.sections implement) raw =
  inr (map (λ x, (Schema.id x, value_of x)) Schema.decls).
Proof.
  intros Hparse. split; [apply ids_NoDup|].
  assert (concat (map (λ x, [(Schema.id x, value_of x)]) Schema.decls)
          = map (λ x, (Schema.id x, value_of x)) Schema.decls) as Hcat.
  { generalize Schema.decls. intros l.
    induction l as [|x l IH]; simpl; [done | by rewrite IH]. }
  rewrite <- Hcat. apply parse_sections_distinct.
  - unfold Schema.sections. rewrite all_inputs_build.
    change (flat_map snd Schema.declared) with Schema.decls.
    apply Forall2_fmap, Forall_Forall2_diag, Forall_forall. exact Hparse.
  - rewrite Hcat. unfold PyDict.keys. rewrite <- list_fmap_compose.
    apply ids_NoDup.
Qed.

Lemma X2_witness :
  NoDup Schema.ids ∧
  parse_sections
    (Schema.sections (λ x, Inputs.TextInput Example.widget (Schema.id x)))
    (Urllib.parse_qs Example.no_percent Example.good true) =
  inr (map (λ x, (Schema.id x,
                  match Urllib.parse_qs Example.no_percent Example.good true
                          !! Schema.id x with
                  | Some (s :: _) => VStr s
                  | _ => VNone
                  end)) Schema.decls).
Proof.
  apply (X2_shipped_schema_has_no_clash
           (λ x, Inputs.TextInput Example.widget (Schema.id x))
           (Urllib.parse_qs Example.no_percent Example.good true)
           (λ x, match Urllib.parse_qs Example.no_percent Example.good true
                         !! Schema.id x with
                 | Some (s :: _) => VStr s
                 | _ => VNone
                 end)).
  intros x _. simpl.
  destruct (Urllib.parse_qs Example.no_percent Example.good true !! Schema.id x)
    as [[|s l]|]; reflexivity.
Defined.

End MergeFacts.

(** ** More on the commit *)

Section CommitMore.
Import GeneralSettingsController.
Variable unquote_percent : string → string.
Variable sections : list Section.t.
Implicit Types (body text : string) (w : world) (data : PyDict.t value)
  (cfg : gmap string value).

Local Abbreviation form text := (Urllib.parse_qs unquote_percent text true).

Lemma apply_delta_elem cfg data k v :
  NoDup (PyDict.keys data) → (k, v) ∈ data →
  Spec.apply_delta cfg data !! k = Spec.stored v.
Proof.
  intros Hnd Hkv. rewrite apply_delta_lookup.
  rewrite PyDictFacts.last_binding_dict by done.
  by rewrite (PyDictFacts.elem_getitem k v).
Qed.

Lemma apply_delta_idempotent cfg data :
  Spec.apply_delta (Spec.apply_delta cfg data) data = Spec.apply_delta cfg data.
Proof.
  apply map_eq. intros k. rewrite !apply_delta_lookup.
  by destruct (PyDict.last_binding k data).
Qed.

(** On a store in which the keys to delete are absent already, a delta only
    sets. *)
Lemma delta_events_settled cfg data :
  (∀ k v, (k, v) ∈ data → is_None v = true → cfg !! k = None) →
  Spec.delta_events cfg data = Spec.set_events data.
Proof.
  unfold Spec.delta_events, Spec.set_events.
  induction data as [|[k v] data IH]; intros H; simpl; [done|].
  rewrite IH by (intros; eapply H; [by right | done]). f_equal.
  unfold Spec.item_events; simpl. destruct (is_None v) eqn:Hv; [|done].
  by rewrite (H k v) by first [done | left].
Qed.

(** X3. Submitting the same form twice leaves the configuration as the
    first submission left it, whether or not either persist goes through
    ([st] is the state of the storage at the second submission); the
    second run deletes nothing and sets the same values again, then
    persists and redirects when the storage allows. *)
Theorem X3_resubmission_is_idempotent body text data w st :
  PyStr.decode_utf8 body = inr text →
  parse_sections sections (form text) = inr data →
  ∃ r1 w1 r2 w2,
    processFormData unquote_percent sections body w = (r1, w1) ∧
    processFormData unquote_percent sections body
      (World (config w1) (log w1) st) = (r2, w2) ∧
    config w2 = config w1 ∧
    log w2 = log w1 ++ Spec.set_events data
               ++ match st with
                  | None => [EvStore (config w1); EvRedirect "/generalsettings"]
                  | Some _ => []
                  end ∧
    (storage w = None → r1 = inr ()) ∧
    (st = None → r2 = inr ()).
Proof.
  intros Hbody Hdata.
  pose proof (parse_sections_NoDup _ _ _ Hdata) as Hnd.
  assert (Spec.delta_events (Spec.apply_delta (config w) data) data
          = Spec.set_events data) as Hsettled.
  { apply delta_events_settled. intros k v Hkv Hv.
    rewrite (apply_delta_elem _ _ k v) by done.
    unfold Spec.stored. by rewrite Hv. }
  set (w1 := (Spec.commit_outcome w data).2).
  assert (config w1 = Spec.apply_delta (config w) data) as Hcfg.
  { unfold w1, Spec.commit_outcome. by destruct (storage w). }
  exists (Spec.commit_outcome w data).1, w1,
    (Spec.commit_outcome (World (config w1) (log w1) st) data).1,
    (Spec.commit_outcome (World (config w1) (log w1) st) data).2.
  split.
  { rewrite (processFormData_commits _ _ _ _ _ _ Hbody Hdata).
    apply surjective_pairing. }
  split.
  { rewrite (processFormData_commits _ _ _ _ _ _ Hbody Hdata).
    apply surjective_pairing. }
  unfold Spec.commit_outcome at 1 2 3. unfold Spec.applied. cbn [config log storage].
  rewrite Hcfg, apply_delta_idempotent, Hsettled.
  split_and!.
  - by destruct st.
  - destruct st; simpl; [by rewrite app_nil_r | done].
  - unfold Spec.commit_outcome. by intros ->.
  - by intros ->.
Qed.

(** X4. The commit never writes [None] into the store: no set operation
    carries it, and a key that holds [None] afterwards is one the form does
    not own and that held it before. *)
Theorem X4_commit_never_stores_None body text data w :
  PyStr.decode_utf8 body = inr text →
  parse_sections sections (form text) = inr data →
  ∃ r w' new,
    processFormData unquote_percent sections body w = (r, w') ∧
    (storage w = None → r = inr ()) ∧
    log w' = log w ++ new ∧
    (∀ k, EvSet k VNone ∉ new) ∧
    (∀ k, config w' !! k = Some VNone →
          (k ∉ PyDict.keys data) ∧ config w !! k = Some VNone).
Proof.
  intros Hbody Hdata.
  assert (∀ k, EvSet k VNone ∉ Spec.delta_events (config w) data) as Hset.
  { intros k Hin. unfold Spec.delta_events in Hin.
    apply list_elem_of_In, in_flat_map in Hin as ([k' v] & _ & Hin).
    apply list_elem_of_In in Hin. unfold Spec.item_events in Hin; simpl in Hin.
    destruct (is_None v) eqn:Hv.
    - destruct (config w !! k'); [|by apply elem_of_nil in Hin].
      apply list_elem_of_singleton in Hin. discriminate Hin.
    - apply list_elem_of_singleton in Hin. injection Hin as -> <-. done. }
  assert (∀ k, Spec.apply_delta (config w) data !! k = Some VNone →
               (k ∉ PyDict.keys data) ∧ config w !! k = Some VNone) as Hcfg.
  { intros k. rewrite apply_delta_lookup.
    destruct (PyDict.last_binding k data) as [v|] eqn:Hl.
    - unfold Spec.stored. destruct v; simpl; intros [=].
    - apply PyDictFacts.last_binding_None in Hl. done. }
  rewrite (processFormData_commits _ _ _ _ _ _ Hbody Hdata).
  unfold Spec.commit_outcome, Spec.applied.
  destruct (storage w) as [e|]; eexists _, _, _; (split; [done|]); simpl;
    (split; [done|]); (split; [done|]); (split; [|done]).
  - done.
  - intros k. rewrite elem_of_app. intros [Hin|Hin]; [by apply (Hset k)|].
    apply elem_of_cons in Hin as [Hin|Hin]; [discriminate Hin|].
    apply list_elem_of_singleton in Hin. discriminate Hin.
Qed.

End CommitMore.

Section CommitMoreWitnesses.
Import GeneralSettingsController.

Lemma X3_witness :
  ∃ r1 w1 r2 w2,
    processFormData Example.no_percent Example.schema Example.good
      Example.store0 = (r1, w1) ∧
    processFormData Example.no_percent Example.schema Example.good
      (World (config w1) (log w1) (Some Example.disk_full)) = (r2, w2) ∧
    config w2 = config w1 ∧
    log w2 = log w1 ++ Spec.set_events Example.parsed ++ [] ∧
    (storage Example.store0 = None → r1 = inr ()) ∧
    (Some Example.disk_full = None → r2 = inr ()).
Proof.
  apply (X3_resubmission_is_idempotent Example.no_percent Example.schema
           Example.good Example.good Example.parsed Example.store0
           (Some Example.disk_full)).
  - reflexivity.
  - vm_compute. reflexivity.
Defined.

Lemma X4_witness :
  ∃ r w' new,
    processFormData Example.no_percent Example.schema Example.good
      Example.store0 = (r, w') ∧
    (storage Example.store0 = None → r = inr ()) ∧
    log w' = log Example.store0 ++ new ∧
    (∀ k, EvSet k VNone ∉ new) ∧
    (∀ k, config w' !! k = Some VNone →
          (k ∉ PyDict.keys Example.parsed) ∧
          config Example.store0 !! k = Some VNone).
Proof.
  apply (X4_commit_never_stores_None Example.no_percent Example.schema
           Example.good Example.good Example.parsed Example.store0).
  - reflexivity.
  - vm_compute. reflexivity.
Defined.

End CommitMoreWitnesses.

(** ** More on the decoding of the body *)

Section DecodingMore.
Import GeneralSettingsController.
Variable unquote_percent : string → string.
Variable sections : list Section.t.
Implicit Types (body text field : string) (w : world).

Local Abbreviation form text := (Urllib.parse_qs unquote_percent text true).
Local Abbreviation decoded s :=
  (Urllib.unquote unquote_percent (PyStr.replace "+" " " s)).

(** X5. The decoded mapping never binds a name to an empty list, whatever
    the body and the flag: an input that finds its key finds a first
    value. *)
Theorem X5_mapping_lists_nonempty text keep k :
  Urllib.parse_qs unquote_percent text keep !! k ≠ Some [].
Proof.
  rewrite parse_qs_lookup. unfold Spec.canonical.
  by destruct (Spec.submitted k _).
Qed.

(** X6. With blank values kept, the decoder drops nothing but empty fields:
    every other field of the body yields one pair, in body order, cut at
    its first equals sign (a field without one has the empty value), with
    plus signs read as spaces. *)
Theorem X6_every_field_yields_a_pair text :
  Urllib.parse_qsl unquote_percent text true =
  map (λ field, (decoded (Spec.before "=" field),
                 decoded (Spec.after "=" field)))
      (filter (λ field, field ≠ "") (PyStr.split "&" text)).
Proof. apply parse_qsl_body_pairs. Qed.

Lemma is_ascii_valid body : PyStr.is_ascii body = true → PyStr.utf8_valid body = true.
Proof.
  induction body as [|c body IH]; [done|].
  cbn [PyStr.is_ascii PyStr.utf8_valid].
  intros [-> Hr]%andb_true_iff. auto.
Qed.

Lemma first_raise_Some_Exists {I A} (q : I → exn + A) xs e :
  first_raise q xs = Some e → Exists (λ x, q x = inl e) xs.
Proof.
  induction xs as [|x xs IH]; simpl; [done|].
  destruct (q x) as [e'|] eqn:Hx.
  - intros [= ->]. by left.
  - intros H. right. auto.
Qed.

(** X7. A body of ASCII bytes always decodes, to itself.  When the request
    then ends with an exception, it is never a decoding error: either an
    input raised it on the mapping of that body, and nothing has happened
    to the store; or every input parsed and it is the fault of the storage,
    raised by the persist with the delta applied in memory. *)
Theorem X7_ascii_body_never_fails_to_decode body e w w' :
  PyStr.is_ascii body = true →
  processFormData unquote_percent sections body w = (inl e, w') →
  PyStr.decode_utf8 body = inr body ∧
  ((w' = w ∧
    Exists (λ i, Input.parse i (form body) = inl e) (all_inputs sections)) ∨
   (storage w = Some e ∧
    ∃ data,
      parse_sections sections (form body) = inr data ∧
      w' = Spec.applied w data)).
Proof.
  intros Hascii%is_ascii_valid Hrun.
  assert (PyStr.decode_utf8 body = inr body) as Hbody.
  { unfold PyStr.decode_utf8. by rewrite Hascii. }
  split; [done|].
  destruct (first_raise (λ i, Input.parse i (form body)) (all_inputs sections))
    as [e'|] eqn:Hr.
  - rewrite (processFormData_raises_parse _ _ _ _ _ _ Hbody Hr) in Hrun.
    injection Hrun as -> ->. left. split; [done|].
    by apply first_raise_Some_Exists.
  - pose proof (parse_sections_eq (form body) sections) as Hdata.
    rewrite Hr in Hdata.
    rewrite (processFormData_commits _ _ _ _ _ _ Hbody Hdata) in Hrun.
    unfold Spec.commit_outcome in Hrun.
    destruct (storage w) as [e'|] eqn:Hst; [|discriminate Hrun].
    injection Hrun as -> <-. right. split; [done|]. by eexists.
Qed.

End DecodingMore.

Section DecodingMoreWitnesses.
Import GeneralSettingsController.

Lemma X7_witness :
  PyStr.decode_utf8 Example.good = inr Example.good ∧
  ((Spec.applied Example.broken Example.parsed = Example.broken ∧
    Exists (λ i, Input.parse i
                   (Urllib.parse_qs Example.no_percent Example.good true)
                 = inl Example.disk_full)
      (all_inputs Example.schema)) ∨
   (storage Example.broken = Some Example.disk_full ∧
    ∃ data,
      parse_sections Example.schema
        (Urllib.parse_qs Example.no_percent Example.good true) = inr data ∧
      Spec.applied Example.broken Example.parsed
        = Spec.applied Example.broken data)).
Proof.
  apply (X7_ascii_body_never_fails_to_decode Example.no_percent
           Example.schema Example.good Example.disk_full
           Example.broken (Spec.applied Example.broken Example.parsed)).
  - reflexivity.
  - vm_compute. reflexivity.
Defined.

End DecodingMoreWitnesses.

(** ** The read path of the general settings page *)

Section RenderFacts.
Import GeneralSettingsController.
Implicit Types (s : Section.t) (sections : list Section.t) (w : world).

Lemma Section_render_eq s w :
  Section.render s w =
  (inr (Spec.container (Section.title s)
          (Spec.rendered (config w) (Section.inputs s))), w).
Proof.
  unfold Section.render, bindM, lift.
  by rewrite render_inputs_eq, format_template.
Qed.

Lemma map_M_render sections w :
  map_M Section.render sections w =
  (inr (map (λ s, Spec.container (Section.title s)
                    (Spec.rendered (config w) (Section.inputs s))) sections),
   w).
Proof.
  induction sections as [|s sections IH]; [done|].
  cbn [map_M map]. unfold bindM at 1. rewrite Section_render_eq.
  unfold bindM at 1. by rewrite IH.
Qed.

Lemma format_form_template (body : string) :
  Format.format form_template [("sections", body)] =
  inr (Spec.settings_form body).
Proof. vm_compute. reflexivity. Qed.

(** X8. The page body is the containers of the sections, one after the
    other in schema order, inside the form with its Apply button.
    Rendering it never raises, whatever the titles and the markup of the
    inputs hold (braces included), and leaves the store as it is. *)
Theorem X8_render_sections_is_the_form sections w :
  render_sections sections w =
  (inr (Spec.settings_form (Spec.containers (config w) sections)), w).
Proof.
  unfold render_sections, bindM, lift.
  rewrite map_M_render, format_form_template, join_empty_sep.
  do 3 f_equal. unfold Spec.containers.
  induction sections as [|s sections IH]; simpl; [done | by rewrite IH].
Qed.

End RenderFacts.

(** ** The SDR settings page *)

Section SdrFacts.
Import SdrSettingsController.
Variable json_dumps : PyDict.t value → exn + string.
Variable str_other : value → string.
Implicit Types (device_id : string) (config : PyDict.t value).

Lemma hex_digits_safe (c : ascii) :
  Urllib.always_safe (Urllib.hex_digit (N_of_ascii c / 16)) = true ∧
  Urllib.always_safe (Urllib.hex_digit (N_of_ascii c mod 16)) = true.
Proof. destruct c as [[] [] [] [] [] [] [] []]; vm_compute; done. Qed.

(** What [quote] emits: unreserved characters, slashes and percent
    signs. *)
Lemma quote_chars (s : string) (x : ascii) :
  PyStr.contains x (Urllib.quote s) = true →
  Urllib.always_safe x = true ∨ x = "/"%char ∨ x = "%"%char.
Proof.
  induction s as [|c s IH]; [done|]. cbn [Urllib.quote].
  destruct (Urllib.always_safe c || PyStr.contains c "/") eqn:Hc;
    cbn [PyStr.contains].
  - intros [Hx|Hx]%orb_true_iff; [|auto].
    apply Ascii.eqb_eq in Hx as <-.
    apply orb_true_iff in Hc as [Hc|Hc]; [auto|]. right; left.
    cbn [PyStr.contains] in Hc. rewrite orb_false_r in Hc.
    by apply Ascii.eqb_eq in Hc as <-.
  - destruct (hex_digits_safe c) as [Hhi Hlo].
    intros [Hx|[Hx|[Hx|Hx]%orb_true_iff]%orb_true_iff]%orb_true_iff; [| | |auto].
    + apply Ascii.eqb_eq in Hx as <-. auto.
    + apply Ascii.eqb_eq in Hx as <-. auto.
    + apply Ascii.eqb_eq in Hx as <-. auto.
Qed.

Lemma format_device_form (device_id formdata : string) :
  Format.format form_template
    [("device_id", device_id); ("formdata", formdata)] =
  inr (Spec.device_form formdata).
Proof. vm_compute. reflexivity. Qed.

Lemma format_device_card (device_name form : string) :
  Format.format device_template
    [("device_name", device_name); ("form", form)] =
  inr (Spec.device_card device_name form).
Proof. vm_compute. reflexivity. Qed.

Lemma render_form_eq device_id config :
  render_form json_dumps device_id config =
  match json_dumps config with
  | inr json => inr (Spec.device_form (Urllib.quote json))
  | inl e => inl e
  end.
Proof.
  unfold render_form. destruct (json_dumps config) as [e|json]; [done|].
  apply format_device_form.
Qed.

(** X9. The form of a device raises what [json.dumps] raises on the
    configuration, and nothing else; it does not depend on the device id.
    When the configuration has a JSON text, the form carries it quoted in
    its [data-config] attribute, and a quoted text holds only unreserved
    characters, slashes and percent signs, so no double quote that would
    end the attribute. *)
Theorem X9_render_form_attribute_is_safe device_id config :
  render_form json_dumps device_id config =
    match json_dumps config with
    | inr json => inr (Spec.device_form (Urllib.quote json))
    | inl e => inl e
    end ∧
  ∀ json : string,
    PyStr.contains "034" (Urllib.quote json) = false ∧
    ∀ x, PyStr.contains x (Urllib.quote json) = true →
         Urllib.always_safe x = true ∨ x = "/"%char ∨ x = "%"%char.
Proof.
  split; [apply render_form_eq|]. intros json. split; [|apply quote_chars].
  destruct (PyStr.contains "034" _) eqn:Hq; [|done].
  apply quote_chars in Hq as [Hq|[Hq|Hq]]; discriminate Hq.
Qed.

(** X10. Quoting loses nothing: [unquote_to_bytes] gives back the bytes of
    the quoted string, so the configuration can be read back from the
    attribute. *)
Theorem X10_quote_round_trip (s : string) :
  Urllib.unquote_to_bytes (Urllib.quote s) = s.
Proof.
  induction s as [|c s IH]; [done|].
  transitivity (String c (Urllib.unquote_to_bytes (Urllib.quote s)));
    [|by rewrite IH].
  clear IH. destruct c as [[] [] [] [] [] [] [] []]; reflexivity.
Qed.

Lemma render_device_eq device_id config :
  render_device json_dumps str_other device_id config =
  Spec.card json_dumps str_other (device_id, config).
Proof.
  unfold render_device, subscript, Spec.card; simpl.
  destruct (PyDict.getitem "name" config) as [v|]; [|done]. cbn [bind].
  rewrite render_form_eq. destruct (json_dumps config) as [e|json]; [done|].
  cbn [bind]. apply format_device_card.
Qed.

(** X11. The card of a device needs its name: a configuration without the
    key [name] raises [KeyError], before the form is rendered.  With a
    name, the card raises what [json.dumps] raises on the configuration,
    or else shows the name (a string as it is) above the form, whatever
    the device id. *)
Theorem X11_render_device_needs_a_name device_id config :
  render_device json_dumps str_other device_id config =
  match PyDict.getitem "name" config with
  | Some v =>
      match json_dumps config with
      | inr json =>
          inr (Spec.device_card (py_str str_other v)
                 (Spec.device_form (Urllib.quote json)))
      | inl e => inl e
      end
  | None => inl (Raise "KeyError" "name")
  end.
Proof. apply render_device_eq. Qed.

(** X12. The device list is all or nothing.  With no [sdrs] entry it
    raises [KeyError].  Otherwise the devices are rendered in the order of
    the dict: the first one without a name or without a JSON text ends the
    list with its exception; when there is none, the list is the cards of
    all devices, one after the other (empty for an empty dict). *)
Theorem X12_render_devices_all_or_nothing :
  render_devices json_dumps str_other None = inl (Raise "KeyError" "sdrs") ∧
  ∀ devices,
    render_devices json_dumps str_other (Some devices) =
    match first_raise (Spec.card json_dumps str_other) devices with
    | Some e => inl e
    | None => inr (Spec.cards json_dumps str_other devices)
    end.
Proof.
  split; [done|]. intros devices. unfold render_devices.
  assert (map_E (λ kv, render_device json_dumps str_other kv.1 kv.2) devices =
          match first_raise (Spec.card json_dumps str_other) devices with
          | Some e => inl e
          | None =>
              inr (omap (λ kv, match Spec.card json_dumps str_other kv with
                               | inr c => Some c
                               | inl _ => None
                               end) devices)
          end) as ->.
  { induction devices as [|[device_id config] devices IH]; [done|].
    cbn [map_E first_raise]. rewrite render_device_eq, IH; simpl.
    destruct (Spec.card json_dumps str_other (device_id, config)) as [e|c];
      simpl; [done|].
    by destruct (first_raise _ devices). }
  destruct (first_raise _ devices) eqn:Hr; [done|]. cbn [bind].
  rewrite join_empty_sep. f_equal. unfold Spec.cards. clear Hr.
  induction devices as [|kv devices IH]; [done|].
  cbn [foldr]. rewrite <- IH. csimpl.
  by destruct (Spec.card json_dumps str_other kv).
Qed.

End SdrFacts.
